(** * Inventory label sheets: a model of [label_generator.py]

    The development follows the Python module top to bottom: text helpers
    ([in], [str.endswith], [str.lower]), the arithmetic the layout uses, the
    [LabelGenerator] configuration and its derived section widths, the
    colour table, the drawing of one label on a canvas, and the loop of
    [generate_labels] that places the labels on pages. *)

From Stdlib Require Import ZArith QArith Lqa Floats Ascii.
From stdpp Require Import base option list gmap strings.

Local Open Scope Z_scope.

(** ** Text

    A Python [str] is modelled by its UTF-8 bytes, a Rocq [string].  The
    literals the program searches for are ASCII, so that byte-wise search and
    code-point search agree. *)

Module Text.

(** [sub in s]: [s] holds [sub] as a contiguous block. *)
Fixpoint contains (sub s : string) : bool :=
  String.prefix sub s ||
  match s with
  | EmptyString => false
  | String _ s' => contains sub s'
  end.

(** [s.endswith(suffix)]. *)
Fixpoint endswith (s suffix : string) : bool :=
  String.eqb s suffix ||
  match s with
  | EmptyString => false
  | String _ s' => endswith s' suffix
  end.

(** [s.lower()] on the bytes of [s]: the letters A-Z go to a-z, and the
    KELVIN SIGN (U+212A, bytes E2 84 AA), the one character outside ASCII
    whose lower case is an ASCII letter, goes to k.  Every other character
    outside ASCII is left as it is: its lower case is again outside ASCII,
    so that comparisons with ASCII keys are not affected. *)
Definition lower_ascii (c : Ascii.ascii) : Ascii.ascii :=
  let n := Ascii.N_of_ascii c in
  if ((65 <=? n) && (n <=? 90))%N then Ascii.ascii_of_N (n + 32) else c.

Fixpoint lower (s : string) : string :=
  match s with
  | EmptyString => EmptyString
  | String c s' =>
      match lower s' with
      | String c1 (String c2 t) as t' =>
          if Ascii.eqb c "226"%char && Ascii.eqb c1 "132"%char && Ascii.eqb c2 "170"%char
          then String "k"%char t
          else String (lower_ascii c) t'
      | t' => String (lower_ascii c) t'
      end
  end.

(** The relations the two searches decide. *)
Definition Substring (sub s : string) : Prop :=
  exists before after, s = String.app before (String.app sub after).

Definition Suffix (suffix s : string) : Prop :=
  exists before, s = String.app before suffix.

End Text.

(** ** Exceptions and results *)

Inductive exn :=
| ValueError (msg : string)
| ZeroDivisionError
| IndexError
| KeyError (key : string)
| AttributeError
| OSError (path : string)
| LibraryError (what : string).

Inductive result (A : Type) :=
| Ok (a : A)
| Raise (e : exn).
Arguments Ok {A} a.
Arguments Raise {A} e.

#[export] Instance result_ret : MRet result := fun A a => Ok a.
#[export] Instance result_bind : MBind result := fun A B k r =>
  match r with
  | Ok a => k a
  | Raise e => Raise e
  end.

(** ** Arithmetic

    The geometry is computed with Python numbers: [int] for the grid and
    [float] for lengths in points.  [PyNum] is the interface the program
    needs of the type of lengths; integer operands are promoted with
    [of_int] and decimal literals are read with [of_lit]. *)

Class PyNum (num : Type) := {
  of_int : Z -> num;
  of_lit : Q -> num;
  nadd : num -> num -> num;
  nsub : num -> num -> num;
  nmul : num -> num -> num;
  ndiv : num -> num -> num;
  nltb : num -> num -> bool;
  is_zero : num -> bool
}.

Declare Scope num_scope.
Delimit Scope num_scope with num.
Infix "+" := nadd : num_scope.
Infix "-" := nsub : num_scope.
Infix "*" := nmul : num_scope.
Infix "/" := ndiv : num_scope.

(** Binary64, the [float] of Python. *)
Definition float_of_Z (z : Z) : float :=
  SF2Prim (binary_normalize prec emax z 0 false).

#[export] Instance float_num : PyNum float := {
  of_int := float_of_Z;
  of_lit q := PrimFloat.div (float_of_Z (Qnum q)) (float_of_Z (Zpos (Qden q)));
  nadd := PrimFloat.add;
  nsub := PrimFloat.sub;
  nmul := PrimFloat.mul;
  ndiv := PrimFloat.div;
  nltb := PrimFloat.ltb;
  is_zero := PrimFloat.is_zero
}.

(** Exact rationals, the arithmetic of [fractions.Fraction]. *)
#[export] Instance exact_num : PyNum Q := {
  of_int := inject_Z;
  of_lit q := q;
  nadd := Qplus;
  nsub := Qminus;
  nmul := Qmult;
  ndiv := Qdiv;
  nltb a b := negb (Qle_bool b a);
  is_zero q := Qeq_bool q 0
}.

(** [a % b] and [a // b] on [int]: the floor convention, which is the one of
    [Z.modulo] and [Z.div]; a zero divisor raises. *)
Definition py_mod (a b : Z) : result Z :=
  if b =? 0 then Raise ZeroDivisionError else Ok (a mod b).

Definition py_floordiv (a b : Z) : result Z :=
  if b =? 0 then Raise ZeroDivisionError else Ok (a / b).

Section Numbers.
Context {num : Type} `{PyNum num}.

(** [a / b], true division. *)
Definition py_truediv (a b : num) : result num :=
  if is_zero b then Raise ZeroDivisionError else Ok (a / b)%num.

(** [min(a, b)]: the first of the smallest. *)
Definition py_min (a b : num) : num := if nltb b a then b else a.

(** [sum(l)], which starts from the integer 0. *)
Definition py_sum (l : list num) : num := fold_left nadd l (of_int 0).

(** [l[i]] for a non-negative literal [i]. *)
Definition py_index {A : Type} (l : list A) (i : nat) : result A :=
  match l !! i with
  | Some a => Ok a
  | None => Raise IndexError
  end.

End Numbers.

(** ** Configuration ([LabelGenerator.__init__])

    [Config] is the dictionary [self.config] once the caller's overrides
    have been merged into the defaults. *)

Record Config (num : Type) := {
  page_width : num;
  page_height : num;
  label_width : num;
  label_height : num;
  columns : Z;
  rows : Z;
  top_margin : num;
  left_margin : num;
  h_gap : num;
  v_gap : num;
  header_font : string;
  header_size : num;
  content_font : string;
  content_size : num;
  section_ratios : list num
}.
Arguments page_width {num} _.
Arguments page_height {num} _.
Arguments label_width {num} _.
Arguments label_height {num} _.
Arguments columns {num} _.
Arguments rows {num} _.
Arguments top_margin {num} _.
Arguments left_margin {num} _.
Arguments h_gap {num} _.
Arguments v_gap {num} _.
Arguments header_font {num} _.
Arguments header_size {num} _.
Arguments content_font {num} _.
Arguments content_size {num} _.
Arguments section_ratios {num} _.

(** [self.config.update({'columns': c, 'rows': r})] and
    [self.config.update({'section_ratios': ratios})]. *)
Definition update_grid {num : Type} (cfg : Config num) (c r : Z)
  : Config num :=
  {| page_width := page_width cfg; page_height := page_height cfg;
     label_width := label_width cfg; label_height := label_height cfg;
     columns := c; rows := r;
     top_margin := top_margin cfg; left_margin := left_margin cfg;
     h_gap := h_gap cfg; v_gap := v_gap cfg;
     header_font := header_font cfg; header_size := header_size cfg;
     content_font := content_font cfg; content_size := content_size cfg;
     section_ratios := section_ratios cfg |}.

Definition update_ratios {num : Type} (cfg : Config num) (ratios : list num)
  : Config num :=
  {| page_width := page_width cfg; page_height := page_height cfg;
     label_width := label_width cfg; label_height := label_height cfg;
     columns := columns cfg; rows := rows cfg;
     top_margin := top_margin cfg; left_margin := left_margin cfg;
     h_gap := h_gap cfg; v_gap := v_gap cfg;
     header_font := header_font cfg; header_size := header_size cfg;
     content_font := content_font cfg; content_size := content_size cfg;
     section_ratios := ratios |}.

Record LabelGenerator (num : Type) := {
  config : Config num;
  section_widths : list num
}.
Arguments config {num} _.
Arguments section_widths {num} _.

(** ** Colours ([reportlab.lib.colors]) *)

Inductive Color :=
| red | green | blue | yellow | orange | purple | pink | gray
| lightgrey | white | black.

Definition color_dict : gmap string Color :=
  <["red" := red]> (<["green" := green]> (<["blue" := blue]>
  (<["yellow" := yellow]> (<["orange" := orange]> (<["purple" := purple]>
  (<["pink" := pink]> (<["gray" := gray]> (<["lightgray" := lightgrey]>
  (<["white" := white]> ∅))))))))).

Definition get_background_color (color_name : string) : Color :=
  default white (color_dict !! Text.lower color_name).

(** ** Zone header (lines 166-176 of [draw_label]) *)

Definition header_text (qr_value : string) : string :=
  if Text.contains "STOWAGE" qr_value then "AMBIENT"
  else if Text.contains "CHILLER" qr_value then "CHILLED"
  else if Text.contains "FROZEN" qr_value then "FREEZER"
  else "AMBIENT".

(** ** The world of a run

    Files are kept by path.  A table file holds the rows pandas reads from
    it, each row a dictionary from column name to the text of the cell.

    The tables of the model are the tables whose cells are text.  A cell
    of the columns color or qr_value that pandas reads as a number (an
    empty cell is read as NaN) is outside it: [color_name.lower()] and
    ["STOWAGE" in qr_value] raise on such a cell.  The rows of a table of
    pandas all have the same columns; the rows of the model need not. *)

Definition Row : Type := gmap string string.
Definition DataFrame : Type := list Row.

(** A QR image is known by the text it encodes. *)
Inductive Image := QRImage (data : string).

Section World.
Context {num : Type}.

(** The drawing calls [draw_label] makes on a canvas. *)
Inductive Op :=
| SetStrokeColor (c : Color)
| SetFillColor (c : Color)
| SetLineWidth (w : num)
| RoundRect (x y width height radius : num) (stroke fill : bool)
| SetFont (name : string) (size : num)
| DrawCentredString (x y : num) (text : string)
| DrawImage (image : Image) (x y width height : num).

(** A canvas: the file it will be saved to, its title, the number of
    [showPage] calls so far, and the drawing calls in order, each with the
    page that was current when it was made. *)
Record Canvas := {
  cv_filename : string;
  cv_title : string;
  cv_page : Z;
  cv_ops : list (Z * Op)
}.

Inductive File :=
| CsvFile (df : DataFrame)
| ExcelFile (df : DataFrame)
| PngFile (img : Image)
| PdfFile (doc : Canvas).

Inductive Output :=
| Line (text : string)
| Summary (output_pdf : string) (total_labels pages : Z).

Record State := {
  files : gmap string File;
  stdout : list Output;
  surface : option Canvas
}.

(** What the libraries do that the program cannot see: whether the QR
    encoder accepts a text, and whether the canvas raises on a drawing
    call. *)
Record Env := {
  qr_make : string -> result Image;
  canvas_fault : Op -> option exn
}.

(** Computations that read and write the state and may raise; the state
    reached when an exception is raised is kept. *)
Definition M (A : Type) : Type := State -> State * result A.

Definition M_ret {A : Type} (a : A) : M A := fun st => (st, Ok a).

Definition M_bind {A B : Type} (k : A -> M B) (m : M A) : M B :=
  fun st =>
    match m st with
    | (st1, Ok a) => k a st1
    | (st1, Raise e) => (st1, Raise e)
    end.

Definition lift {A : Type} (r : result A) : M A := fun st => (st, r).

Definition raise {A : Type} (e : exn) : M A := lift (Raise e).

End World.
Arguments Op : clear implicits.
Arguments Canvas : clear implicits.
Arguments File : clear implicits.
Arguments State : clear implicits.
Arguments Env : clear implicits.
Arguments M : clear implicits.

#[export] Instance M_mret {num : Type} : MRet (M num) := @M_ret num.
#[export] Instance M_mbind {num : Type} : MBind (M num) := @M_bind num.

(** ** The program *)

Section Program.
Context {num : Type} `{PyNum num} (env : Env num).

Abbreviation State := (State num).
Abbreviation Canvas := (Canvas num).
Abbreviation M := (M num).

Definition set_files (f : gmap string (File num)) (st : State) : State :=
  {| files := f; stdout := stdout st; surface := surface st |}.

Definition set_surface (c : option Canvas) (st : State) : State :=
  {| files := files st; stdout := stdout st; surface := c |}.

(** [print(...)]. *)
Definition print (o : Output) : M unit := fun st =>
  ({| files := files st; stdout := stdout st ++ [o]; surface := surface st |},
   Ok tt).

(** *** pandas *)

Definition read_csv (file_path : string) : M DataFrame := fun st =>
  match files st !! file_path with
  | Some (CsvFile df) => (st, Ok df)
  | _ => (st, Raise (OSError file_path))
  end.

Definition read_excel (file_path : string) : M DataFrame := fun st =>
  match files st !! file_path with
  | Some (ExcelFile df) => (st, Ok df)
  | _ => (st, Raise (OSError file_path))
  end.

(** [row[key]]. *)
Definition row_get (row : Row) (key : string) : result string :=
  match row !! key with
  | Some v => Ok v
  | None => Raise (KeyError key)
  end.

(** *** The canvas *)

(** [canvas.Canvas(output_pdf, pagesize=letter)]: nothing is written before
    [save]. *)
Definition new_canvas (output_pdf : string) : M unit := fun st =>
  (set_surface
     (Some {| cv_filename := output_pdf; cv_title := ""; cv_page := 0;
              cv_ops := [] |}) st,
   Ok tt).

Definition with_canvas {A : Type} (f : Canvas -> State -> State * result A)
  : M A := fun st =>
  match surface st with
  | Some c => f c st
  | None => (st, Raise AttributeError)
  end.

Definition setTitle (title : string) : M unit :=
  with_canvas (fun c st =>
    (set_surface
       (Some {| cv_filename := cv_filename c; cv_title := title;
                cv_page := cv_page c; cv_ops := cv_ops c |}) st,
     Ok tt)).

Definition showPage : M unit :=
  with_canvas (fun c st =>
    (set_surface
       (Some {| cv_filename := cv_filename c; cv_title := cv_title c;
                cv_page := cv_page c + 1; cv_ops := cv_ops c |}) st,
     Ok tt)).

(** The drawing calls: the call is recorded on the current page, unless the
    canvas raises on it. *)
Definition record_op (c : Canvas) (op : Op num) : Canvas :=
  {| cv_filename := cv_filename c; cv_title := cv_title c;
     cv_page := cv_page c; cv_ops := cv_ops c ++ [(cv_page c, op)] |}.

Definition draw (op : Op num) : M unit :=
  with_canvas (fun c st =>
    match canvas_fault env op with
    | Some e => (st, Raise e)
    | None => (set_surface (Some (record_op c op)) st, Ok tt)
    end).

(** [canvas.drawImage(path, ...)] reads the image from the file. *)
Definition drawImage (path : string) (x y width height : num) : M unit :=
  fun st =>
    match files st !! path with
    | Some (PngFile img) => draw (DrawImage img x y width height) st
    | _ => (st, Raise (OSError path))
    end.

(** [c.save()] writes the document. *)
Definition save : M unit :=
  with_canvas (fun c st =>
    (set_files (<[cv_filename c := PdfFile c]> (files st)) st, Ok tt)).

(** *** Files *)

(** [img.save(path)], for a path that names a file of the working
    directory, which the file system takes whatever it held.  A name with
    a path separator, which [open] refuses when the directory is not
    there, is outside the model. *)
Definition image_save (img : Image) (path : string) : M unit := fun st =>
  (set_files (<[path := PngFile img]> (files st)) st, Ok tt).

(** [os.path.exists(path)] and [os.remove(path)]. *)
Definition path_exists (path : string) : M bool := fun st =>
  (st, Ok (bool_decide (is_Some (files st !! path)))).

Definition remove (path : string) : M unit := fun st =>
  match files st !! path with
  | Some _ => (set_files (delete path (files st)) st, Ok tt)
  | None => (st, Raise (OSError path))
  end.

(** *** [LabelGenerator] *)

(** [__init__]: the section widths from the ratios.  The ratios are
    lengths of the type [num]; a whole-number ratio is its image by
    [of_int], which in binary64 is the number itself up to [2^53]. *)
Definition __init__ (cfg : Config num) : result (LabelGenerator num) :=
  let total_ratio := py_sum (section_ratios cfg) in
  widths ← mapM (fun ratio =>
              q ← py_truediv ratio total_ratio;
              mret (q * label_width cfg)%num)
            (section_ratios cfg);
  mret {| config := cfg; section_widths := widths |}.

Definition unsupported : exn :=
  ValueError "Unsupported file format. Please use CSV or Excel.".

Definition read_data (file_path : string) : M DataFrame :=
  if Text.endswith file_path ".csv" then read_csv file_path
  else if Text.endswith file_path ".xlsx" || Text.endswith file_path ".xls"
  then read_excel file_path
  else raise unsupported.

Definition create_qr_code (data : string) : M Image :=
  lift (qr_make env data).

(** The four fields [draw_label] unpacks from [data]. *)
Record LabelData := {
  aisle : string;
  ambient : string;
  bg_color : string;
  qr_value : string
}.

Definition temp_qr_file (d : LabelData) : string :=
  String.app "temp_qr_"
    (String.app (aisle d) (String.app "_" (String.app (ambient d) ".png"))).

(** The text of line 200 as the file holds it: the three characters
    U+00E2, U+2020 and U+2018 (the bytes C3 A2, E2 80 A0, E2 80 98), which
    are the UTF-8 bytes of an up arrow read as Windows-1252 and encoded
    again.  The source comment calls it the up arrow character. *)
Definition up_arrow : string := "â†‘".

Definition draw_label (self : LabelGenerator num) (x y : num) (data : LabelData)
  : M unit :=
  let cfg := config self in
  let label_width := label_width cfg in
  let label_height := label_height cfg in
  w0 ← lift (py_index (section_widths self) 0);
  w1 ← lift (py_index (section_widths self) 1);
  let start0 := x in
  let start1 := (x + w0)%num in
  let start2 := (x + w0 + w1)%num in
  draw (SetStrokeColor lightgrey);;
  draw (SetLineWidth (of_lit 0.5%Q));;
  draw (RoundRect x y label_width label_height (of_int 10) true false);;
  draw (SetFillColor (get_background_color (bg_color data)));;
  draw (RoundRect start1 y w1 label_height (of_int 0) false true);;
  draw (SetFillColor black);;
  draw (SetFont (header_font cfg) (header_size cfg));;
  draw (DrawCentredString (start0 + w0 / of_int 2)%num
          (y + label_height - header_size cfg - of_int 4)%num "AISLE");;
  draw (SetFont (content_font cfg) (content_size cfg));;
  draw (DrawCentredString (start0 + w0 / of_int 2)%num
          (y + label_height / of_int 2 - content_size cfg / of_int 2)%num
          (aisle data));;
  draw (SetFont (header_font cfg) (header_size cfg));;
  draw (DrawCentredString (start1 + w1 / of_int 2)%num
          (y + label_height - header_size cfg - of_int 4)%num
          (header_text (qr_value data)));;
  draw (SetFont (content_font cfg) (content_size cfg));;
  draw (DrawCentredString (start1 + w1 / of_int 2)%num
          (y + label_height / of_int 2 - content_size cfg / of_int 2)%num
          (ambient data));;
  w2 ← lift (py_index (section_widths self) 2);
  let section_center_x := (start2 + w2 / of_int 2)%num in
  draw (SetFont (content_font cfg) (of_int 14));;
  draw (DrawCentredString section_center_x (y + label_height - of_int 20)%num
          up_arrow);;
  let qr_data := qr_value data in
  print (Line qr_data);;
  qr_img ← create_qr_code qr_data;
  let qr_size := py_min (w2 * of_lit 0.8%Q)%num (label_height * of_lit 0.6%Q)%num in
  let qr_x := (section_center_x - qr_size / of_int 2)%num in
  let qr_y := (y + (label_height - qr_size) / of_int 2 - of_int 5)%num in
  image_save qr_img (temp_qr_file data);;
  drawImage (temp_qr_file data) qr_x qr_y qr_size qr_size;;
  present ← path_exists (temp_qr_file data);
  if present : bool then remove (temp_qr_file data) else mret tt.

(** The grid cell of label [idx] (lines 285-289): its position on the page,
    its row and its column. *)
Definition labels_per_page (cfg : Config num) : Z := columns cfg * rows cfg.

Definition grid_cell (cfg : Config num) (idx : Z) : result (Z * Z * Z) :=
  position_on_page ← py_mod idx (labels_per_page cfg);
  row_num ← py_floordiv position_on_page (columns cfg);
  col_num ← py_mod position_on_page (columns cfg);
  mret (position_on_page, row_num, col_num).

(** The lower-left corner of the label (lines 296-298). *)
Definition label_x (cfg : Config num) (col_num : Z) : num :=
  (left_margin cfg + of_int col_num * (label_width cfg + h_gap cfg))%num.

Definition label_y (cfg : Config num) (row_num : Z) : num :=
  (page_height cfg - top_margin cfg - of_int (row_num + 1) * label_height cfg
   - of_int row_num * v_gap cfg)%num.

(** One turn of the loop of [generate_labels]. *)
Definition place_label (self : LabelGenerator num) (idx : Z) (row : Row)
  : M unit :=
  let cfg := config self in
  '(position_on_page, row_num, col_num) ← lift (grid_cell cfg idx);
  (if (position_on_page =? 0) && (0 <? idx) then showPage else mret tt);;
  let x := label_x cfg col_num in
  let y := label_y cfg row_num in
  aisle ← lift (row_get row "aisle");
  ambient ← lift (row_get row "ambient");
  color ← lift (row_get row "color");
  qr_value ← lift (row_get row "qr_value");
  draw_label self x y
    {| aisle := aisle; ambient := ambient; bg_color := color;
       qr_value := qr_value |}.

(** [for idx, row in df.iterrows()], the rows numbered from [idx]. *)
Fixpoint for_rows (body : Z -> Row -> M unit) (idx : Z) (df : DataFrame)
  : M unit :=
  match df with
  | [] => mret tt
  | row :: df' => body idx row;; for_rows body (idx + 1) df'
  end.

(** The page count of the closing message (line 311). *)
Definition page_count (total_labels labels_per_page : Z) : result Z :=
  pages ← py_floordiv (total_labels - 1) labels_per_page;
  mret (pages + 1).

Definition generate_labels (self : LabelGenerator num)
  (data_file output_pdf : string) : M unit :=
  df ← read_data data_file;
  let total_labels := Z.of_nat (length df) in
  new_canvas output_pdf;;
  setTitle "Generated Labels";;
  for_rows (place_label self) 0 df;;
  save;;
  pages ← lift (page_count total_labels (labels_per_page (config self)));
  print (Summary output_pdf total_labels pages).

End Program.

(** ** Reading a document

    What the statements below look at in a canvas: the outline of each
    label (the one rounded rectangle drawn with a stroke) with its page and
    lower-left corner, and the texts drawn. *)

Section Reading.
Context {num : Type} `{PyNum num}.

(** Where a label is: its page and the lower-left corner of its box. *)
Record Placement := Place {
  page_index : Z;
  corner_x : num;
  corner_y : num
}.

Definition border_of (entry : Z * Op num) : option Placement :=
  match entry with
  | (page, RoundRect x y _ _ _ true _) => Some (Place page x y)
  | _ => None
  end.

Definition borders (c : Canvas num) : list Placement :=
  omap border_of (cv_ops c).

(** The texts drawn and the fill colours set, in order. *)
Definition text_of (entry : Z * Op num) : option string :=
  match entry with
  | (_, DrawCentredString _ _ text) => Some text
  | _ => None
  end.

Definition texts (c : Canvas num) : list string := omap text_of (cv_ops c).

Definition fill_of (entry : Z * Op num) : option Color :=
  match entry with
  | (_, SetFillColor color) => Some color
  | _ => None
  end.

Definition fills (c : Canvas num) : list Color := omap fill_of (cv_ops c).

(** The drawing calls that place an image. *)
Definition is_image (op : Op num) : bool :=
  match op with
  | DrawImage _ _ _ _ _ => true
  | _ => false
  end.

(** The placements the loop of [generate_labels] makes for [n] rows
    numbered from [idx], when the canvas is on page [page]: the loop with
    everything but the geometry and the page breaks left out. *)
Fixpoint layout (cfg : Config num) (idx : Z) (n : nat) (page : Z)
  : list Placement :=
  match n with
  | O => []
  | S n' =>
      match grid_cell cfg idx with
      | Ok (position_on_page, row_num, col_num) =>
          let page' :=
            if (position_on_page =? 0) && (0 <? idx) then page + 1 else page in
          Place page' (label_x cfg col_num) (label_y cfg row_num)
            :: layout cfg (idx + 1) n' page'
      | Raise _ => []
      end
  end.

(** The position of label [idx] as the specification gives it (section
    4.3, GridPositioner): the page is [idx div labels_per_page], the cell
    is that of [idx mod labels_per_page], rows first. *)
Definition placement (cfg : Config num) (idx : Z) : Placement :=
  let position_on_page := idx mod labels_per_page cfg in
  Place (idx / labels_per_page cfg)
        (label_x cfg (position_on_page mod columns cfg))
        (label_y cfg (position_on_page / columns cfg)).

(** The rows [generate_labels] can read: the four columns are there. *)
Definition complete_row (row : Row) : Prop :=
  is_Some (row !! "aisle") /\ is_Some (row !! "ambient") /\
  is_Some (row !! "color") /\ is_Some (row !! "qr_value").

(** Libraries that never fail. *)
Definition reliable (env : Env num) : Prop :=
  (forall data, exists img, qr_make env data = Ok img) /\
  (forall op, canvas_fault env op = None).

End Reading.
Arguments Placement : clear implicits.

(** ** The default configuration *)

Section Defaults.
Context {num : Type} `{PyNum num}.

(** [reportlab.lib.units.inch]. *)
Definition inch : num := of_lit 72.

Definition default_config : Config num := {|
  page_width := (of_lit 8.5 * inch)%num;
  page_height := (of_int 11 * inch)%num;
  label_width := (of_lit 2.625 * inch)%num;
  label_height := (of_int 1 * inch)%num;
  columns := 3;
  rows := 10;
  top_margin := (of_lit 0.5 * inch)%num;
  left_margin := (of_lit 0.19 * inch)%num;
  h_gap := (of_lit 0.125 * inch)%num;
  v_gap := (of_lit 0.0 * inch)%num;
  header_font := "Helvetica-Bold";
  header_size := of_int 12;
  content_font := "Helvetica-Bold";
  content_size := of_int 20;
  section_ratios := [of_int 1; of_int 2; of_int 1]
|}.

End Defaults.

(** Worlds for examples, with binary64 lengths: libraries that never fail,
    a canvas that raises on images, and a small table on disk in two
    formats and two orders. *)
Module Example.

Definition env : Env float :=
  {| qr_make := fun data => Ok (QRImage data);
     canvas_fault := fun _ => None |}.

Definition image_error : exn := LibraryError "drawImage".

Definition faulty_env : Env float :=
  {| qr_make := fun data => Ok (QRImage data);
     canvas_fault := fun op => if is_image op then Some image_error else None |}.

(** The generator [LabelGenerator()] builds. *)
Definition generator : LabelGenerator float :=
  {| config := default_config;
     section_widths := [47.25; 94.5; 47.25]%float |}.

(** A generator whose grid has no column: [LabelGenerator({'columns': 0})]. *)
Definition no_columns : LabelGenerator float :=
  {| config := update_grid default_config 0 10;
     section_widths := [47.25; 94.5; 47.25]%float |}.

(** Ratios whose sum is not a finite binary64 number. *)
Definition huge : float := 0x1p+1023%float.

Definition huge_ratios : Config float :=
  update_ratios default_config [huge; huge; huge].

(** A grid with a negative number of rows: [LabelGenerator({'rows': -10})]. *)
Definition negative_rows : Config float := update_grid default_config 3 (-10).

Definition row1 : Row :=
  <["aisle" := "A12"]> (<["ambient" := "B3"]> (<["color" := "blue"]>
  (<["qr_value" := "STOWAGE-A12-B3"]> ∅))).

Definition row2 : Row :=
  <["aisle" := "C5"]> (<["ambient" := "D1"]> (<["color" := "red"]>
  (<["qr_value" := "CHILLER-C5-D1"]> ∅))).

Definition start : State float :=
  {| files := <["locations.csv" := CsvFile [row1; row2]]>
              (<["other.xlsx" := ExcelFile [row2; row1]]>
              (<["empty.csv" := CsvFile []]> ∅));
     stdout := [];
     surface := None |}.

Definition label1 : LabelData :=
  {| aisle := "A12"; ambient := "B3"; bg_color := "blue";
     qr_value := "STOWAGE-A12-B3" |}.

Definition blank_canvas : Canvas float :=
  {| cv_filename := "labels.pdf"; cv_title := "Generated Labels";
     cv_page := 0; cv_ops := [] |}.

Definition drawing : State float :=
  {| files := ∅; stdout := []; surface := Some blank_canvas |}.

(** The states the two example runs end in. *)
Definition finish : State float :=
  Eval vm_compute in
    fst (generate_labels env generator "locations.csv" "labels.pdf" start).

Definition finish_other : State float :=
  Eval vm_compute in
    fst (generate_labels env generator "other.xlsx" "other.pdf" start).

End Example.

(** ** Reading a run

    What the statements about whole labels and whole runs look at: the
    drawing calls of one label in order, the images placed, and what a row
    of the table contributes to the document, to the output and to the
    files. *)

Section ReadingRuns.
Context {num : Type} `{PyNum num}.

(** The side of the QR image (line 209). *)
Definition qr_side (self : LabelGenerator num) (w2 : num) : num :=
  py_min (w2 * of_lit 0.8%Q)%num (label_height (config self) * of_lit 0.6%Q)%num.

(** The drawing calls of [draw_label], in the order the source makes them,
    for section widths [w0], [w1], [w2] and the QR image [img]. *)
Definition label_ops (self : LabelGenerator num) (x y : num) (d : LabelData)
    (w0 w1 w2 : num) (img : Image) : list (Op num) :=
  let cfg := config self in
  let lw := label_width cfg in
  let lh := label_height cfg in
  let centre := (x + w0 + w1 + w2 / of_int 2)%num in
  let side := qr_side self w2 in
  [ SetStrokeColor lightgrey;
    SetLineWidth (of_lit 0.5%Q);
    RoundRect x y lw lh (of_int 10) true false;
    SetFillColor (get_background_color (bg_color d));
    RoundRect (x + w0)%num y w1 lh (of_int 0) false true;
    SetFillColor black;
    SetFont (header_font cfg) (header_size cfg);
    DrawCentredString (x + w0 / of_int 2)%num
      (y + lh - header_size cfg - of_int 4)%num "AISLE";
    SetFont (content_font cfg) (content_size cfg);
    DrawCentredString (x + w0 / of_int 2)%num
      (y + lh / of_int 2 - content_size cfg / of_int 2)%num (aisle d);
    SetFont (header_font cfg) (header_size cfg);
    DrawCentredString (x + w0 + w1 / of_int 2)%num
      (y + lh - header_size cfg - of_int 4)%num (header_text (qr_value d));
    SetFont (content_font cfg) (content_size cfg);
    DrawCentredString (x + w0 + w1 / of_int 2)%num
      (y + lh / of_int 2 - content_size cfg / of_int 2)%num (ambient d);
    SetFont (content_font cfg) (of_int 14);
    DrawCentredString centre (y + lh - of_int 20)%num up_arrow;
    DrawImage img (centre - side / of_int 2)%num
      (y + (lh - side) / of_int 2 - of_int 5)%num side side ].

(** The images placed on a canvas, each with its width and height. *)
Definition image_of (entry : Z * Op num) : option (Image * num * num) :=
  match entry with
  | (_, DrawImage img _ _ width height) => Some (img, width, height)
  | _ => None
  end.

Definition images (c : Canvas num) : list (Image * num * num) :=
  omap image_of (cv_ops c).

(** The canvas [generate_labels] starts the loop with. *)
Definition titled_canvas (output_pdf : string) : Canvas num :=
  {| cv_filename := output_pdf; cv_title := "Generated Labels";
     cv_page := 0; cv_ops := [] |}.

End ReadingRuns.

(** The cell of a row under a column name, and the four fields the loop
    hands to [draw_label]. *)
Definition row_field (row : Row) (key : string) : string :=
  default "" (row !! key).

Definition row_data (row : Row) : LabelData :=
  {| aisle := row_field row "aisle"; ambient := row_field row "ambient";
     bg_color := row_field row "color"; qr_value := row_field row "qr_value" |}.

(** What one row adds to the texts and the fill colours of the document. *)
Definition row_texts (row : Row) : list string :=
  ["AISLE"; row_field row "aisle"; header_text (row_field row "qr_value");
   row_field row "ambient"; up_arrow].

Definition row_fills (row : Row) : list Color :=
  [get_background_color (row_field row "color"); black].

(** The first of the four columns a row does not have, in the order the
    loop reads them. *)
Definition first_missing (row : Row) : option string :=
  match row !! "aisle", row !! "ambient", row !! "color", row !! "qr_value" with
  | None, _, _, _ => Some "aisle"
  | _, None, _, _ => Some "ambient"
  | _, _, None, _ => Some "color"
  | _, _, _, None => Some "qr_value"
  | _, _, _, _ => None
  end.

(** The last character of a text, if it has one. *)
Fixpoint last_char (s : string) : option Ascii.ascii :=
  match s with
  | EmptyString => None
  | String c EmptyString => Some c
  | String _ s' => last_char s'
  end.

(** The files left when the temporary files of the rows have been
    removed. *)
Definition without_temp_files {num : Type} (fs : gmap string (File num))
    (df : DataFrame) : gmap string (File num) :=
  foldl (fun m row => delete (temp_qr_file (row_data row)) m) fs df.

(** The distance between the sum of the section widths [__init__] derives
    and the width of the label, in binary64. *)
Definition widths_error (cfg : Config float) : result float :=
  g ← __init__ cfg;
  mret (PrimFloat.abs (py_sum (section_widths g) - label_width cfg)%num).

Definition widths_within (tolerance : float) (cfg : Config float) : bool :=
  match widths_error cfg with
  | Ok e => PrimFloat.leb e tolerance
  | Raise _ => false
  end.

(** The default label with three whole-number ratios:
    [LabelGenerator({'section_ratios': [a, b, c]})]. *)
Definition whole_ratios (a b c : Z) : Config float :=
  update_ratios default_config [of_int a; of_int b; of_int c].

(** The whole numbers from 1 to 20. *)
Definition small_ratios : list Z := seqZ 1 20.

(** * Facts *)

Module TextFacts.
Import Text.

Lemma app_cons (c : Ascii.ascii) (s t : string) :
  String.app (String c s) t = String c (String.app s t).
Proof. reflexivity. Qed.

Lemma prefix_app (p s : string) :
  String.prefix p s = true <-> exists rest, s = String.app p rest.
Proof.
  revert s; induction p as [|c p IH]; intros s.
  - split; [intros _; exists s; reflexivity | destruct s; reflexivity].
  - destruct s as [|d s]; simpl.
    + split; [discriminate | intros [r Hr]; rewrite ?app_cons in Hr; discriminate].
    + destruct (Ascii.ascii_dec c d) as [->|Hne].
      * rewrite IH. split; intros [r Hr]; exists r; rewrite ?app_cons.
        -- now rewrite Hr.
        -- rewrite ?app_cons in Hr. now inversion Hr.
      * split; [discriminate|].
        intros [r Hr]; rewrite ?app_cons in Hr; inversion Hr; congruence.
Qed.

Lemma contains_nil (sub : string) :
  contains sub EmptyString = String.prefix sub EmptyString.
Proof. unfold contains. apply orb_false_r. Qed.

Lemma contains_cons (sub : string) (c : Ascii.ascii) (s : string) :
  contains sub (String c s) = String.prefix sub (String c s) || contains sub s.
Proof. reflexivity. Qed.

Lemma contains_Substring (sub s : string) :
  contains sub s = true <-> Substring sub s.
Proof.
  induction s as [|c s IH].
  - rewrite contains_nil, prefix_app. split.
    + intros [r Hr]. exists EmptyString, r. exact Hr.
    + intros [[|b before] [after H]]; [exists after; exact H|].
      rewrite ?app_cons in H. discriminate.
  - rewrite contains_cons, orb_true_iff, IH, prefix_app. split.
    + intros [[r Hr] | [before [after H]]].
      * exists EmptyString, r. exact Hr.
      * exists (String c before), after. rewrite ?app_cons. now rewrite H.
    + intros [[|b before] [after H]].
      * left. exists after. exact H.
      * right. exists before, after. rewrite ?app_cons in H. now inversion H.
Qed.

Lemma eqb_string_eq (s t : string) : String.eqb s t = true <-> s = t.
Proof. apply String.eqb_eq. Qed.

Lemma endswith_nil (suffix : string) :
  endswith EmptyString suffix = String.eqb EmptyString suffix.
Proof. unfold endswith. apply orb_false_r. Qed.

Lemma endswith_cons (c : Ascii.ascii) (s suffix : string) :
  endswith (String c s) suffix =
  String.eqb (String c s) suffix || endswith s suffix.
Proof. reflexivity. Qed.

Lemma endswith_Suffix (s suffix : string) :
  endswith s suffix = true <-> Suffix suffix s.
Proof.
  induction s as [|c s IH].
  - rewrite endswith_nil, eqb_string_eq. split.
    + intros <-. exists EmptyString. reflexivity.
    + intros [[|b before] H]; [exact H|]. rewrite ?app_cons in H. discriminate.
  - rewrite endswith_cons, orb_true_iff, IH, eqb_string_eq. split.
    + intros [<- | [before H]].
      * exists EmptyString. reflexivity.
      * exists (String c before). rewrite ?app_cons. now rewrite H.
    + intros [[|b before] H].
      * left. exact H.
      * right. exists before. rewrite ?app_cons in H. now inversion H.
Qed.

Lemma endswith_Suffix_false (s suffix : string) :
  endswith s suffix = false <-> ~ Suffix suffix s.
Proof.
  rewrite <- endswith_Suffix. destruct (endswith s suffix); split; intros;
    congruence.
Qed.

End TextFacts.

(** ** Running computations *)

Section Run.
Context {num : Type} `{PyNum num} (env : Env num).

Lemma bind_ok_inv {A B : Type} (m : M num A) (k : A -> M num B) st st' b :
  (m ≫= k) st = (st', Ok b) ->
  exists st1 a, m st = (st1, Ok a) /\ k a st1 = (st', Ok b).
Proof.
  unfold mbind, M_mbind, M_bind. destruct (m st) as [st1 [a|e]]; intros Hk.
  - exists st1, a. split; [reflexivity | exact Hk].
  - discriminate.
Qed.

Lemma bind_ok {A B : Type} (m : M num A) (k : A -> M num B) st st1 a :
  m st = (st1, Ok a) -> (m ≫= k) st = k a st1.
Proof. unfold mbind, M_mbind, M_bind. now intros ->. Qed.

Lemma bind_raise {A B : Type} (m : M num A) (k : A -> M num B) st st1 e :
  m st = (st1, Raise e) -> (m ≫= k) st = (st1, Raise e).
Proof. unfold mbind, M_mbind, M_bind. now intros ->. Qed.

Lemma lift_ok_inv {A : Type} (r : result A) (st st' : State num) a :
  lift r st = (st', Ok a) -> r = Ok a /\ st' = st.
Proof. unfold lift. intros [= -> ->]. split; reflexivity. Qed.

Lemma draw_ok_inv op st st' u c :
  surface st = Some c ->
  draw env op st = (st', Ok u) ->
  canvas_fault env op = None /\
  st' = set_surface (Some (record_op c op)) st.
Proof.
  unfold draw, with_canvas. intros ->.
  destruct (canvas_fault env op); [discriminate|].
  intros [= <-]. split; reflexivity.
Qed.

Lemma draw_ok op st c :
  surface st = Some c ->
  canvas_fault env op = None ->
  draw env op st = (set_surface (Some (record_op c op)) st, Ok tt).
Proof. unfold draw, with_canvas. now intros -> ->. Qed.

Lemma draw_fault op st c e :
  surface st = Some c ->
  canvas_fault env op = Some e ->
  draw env op st = (st, Raise e).
Proof. unfold draw, with_canvas. now intros -> ->. Qed.

Lemma borders_record_op (c : Canvas num) op :
  borders (record_op c op) =
  borders c ++ match border_of (cv_page c, op) with
               | Some b => [b]
               | None => []
               end.
Proof.
  unfold borders, record_op; simpl cv_ops.
  rewrite omap_app. simpl. now destruct (border_of (cv_page c, op)).
Qed.

Lemma texts_record_op (c : Canvas num) op :
  texts (record_op c op) =
  texts c ++ match text_of (cv_page c, op) with
             | Some t => [t]
             | None => []
             end.
Proof.
  unfold texts, record_op; simpl cv_ops.
  rewrite omap_app. simpl. now destruct (text_of (cv_page c, op)).
Qed.

Lemma fills_record_op (c : Canvas num) op :
  fills (record_op c op) =
  fills c ++ match fill_of (cv_page c, op) with
             | Some t => [t]
             | None => []
             end.
Proof.
  unfold fills, record_op; simpl cv_ops.
  rewrite omap_app. simpl. now destruct (fill_of (cv_page c, op)).
Qed.

End Run.

(** [bind_inv H a Hm]: from [H], a run of [m ≫= k] that returns, the value [a]
    of [m] and its run [Hm]; [H] becomes the run of [k a]. *)
Ltac bind_inv H a Hm :=
  apply bind_ok_inv in H;
  let st1 := fresh "st" in
  destruct H as (st1 & a & Hm & H).

Ltac lift_inv H a Hr :=
  apply bind_ok_inv in H;
  let st1 := fresh "st" in
  let Hm := fresh "Hm" in
  let Hst := fresh "Hst" in
  destruct H as (st1 & a & Hm & H);
  apply lift_ok_inv in Hm;
  destruct Hm as [Hr Hst]; subst st1.

Ltac draw_inv H :=
  apply bind_ok_inv in H;
  let st1 := fresh "st" in
  let a := fresh "a" in
  let Hm := fresh "Hm" in
  let Hst := fresh "Hst" in
  destruct H as (st1 & a & Hm & H);
  eapply draw_ok_inv in Hm; [|reflexivity];
  destruct Hm as [_ Hst]; subst st1.

(** ** One label *)

Section DrawLabel.
Context {num : Type} `{PyNum num} (env : Env num).

Lemma print_eq o (st : State num) :
  print o st =
  ({| files := files st; stdout := stdout st ++ [o]; surface := surface st |},
   Ok tt).
Proof. reflexivity. Qed.

(** A call of [draw_label] that returns has drawn one outline at [(x, y)]
    on the current page, has printed the code, and has left no temporary
    file; the texts it has drawn are the two headers, the two contents and
    the text of line 200, and the middle section is filled with the colour
    of the row. *)
Lemma draw_label_ok_inv self x y d st st' u c :
  surface st = Some c ->
  draw_label env self x y d st = (st', Ok u) ->
  exists c' img,
    qr_make env (qr_value d) = Ok img /\
    surface st' = Some c' /\
    cv_filename c' = cv_filename c /\
    cv_title c' = cv_title c /\
    cv_page c' = cv_page c /\
    borders c' = borders c ++ [Place (cv_page c) x y] /\
    files st' = delete (temp_qr_file d) (files st) /\
    stdout st' = stdout st ++ [Line (qr_value d)] /\
    texts c' =
      texts c ++ ["AISLE"; aisle d; header_text (qr_value d); ambient d;
                  up_arrow] /\
    fills c' = fills c ++ [get_background_color (bg_color d); black].
Proof.
  intros Hc Hrun. unfold draw_label in Hrun.
  lift_inv Hrun w0 Hw0. lift_inv Hrun w1 Hw1.
  bind_inv Hrun u1 Hm. eapply draw_ok_inv in Hm; [|exact Hc].
  destruct Hm as [_ Hst]; subst.
  do 13 draw_inv Hrun.
  lift_inv Hrun w2 Hw2.
  do 2 draw_inv Hrun.
  bind_inv Hrun u2 Hprint. rewrite print_eq in Hprint.
  injection Hprint as <- _.
  lift_inv Hrun img Hqr.
  bind_inv Hrun u3 Hsave. unfold image_save in Hsave.
  injection Hsave as <- _.
  bind_inv Hrun u4 Himg. unfold drawImage in Himg.
  cbn [files set_files] in Himg. rewrite lookup_insert_eq in Himg.
  eapply draw_ok_inv in Himg; [|reflexivity].
  destruct Himg as [_ Hst]; subst.
  bind_inv Hrun present Hex. unfold path_exists in Hex.
  cbn [files set_files set_surface] in Hex.
  rewrite lookup_insert_eq, bool_decide_eq_true_2 in Hex by eauto.
  injection Hex as <- <-.
  unfold remove in Hrun. cbn [files set_files set_surface] in Hrun.
  rewrite lookup_insert_eq in Hrun. injection Hrun as <-.
  eexists _, img. split; [exact Hqr|].
  split; [reflexivity|]. do 3 (split; [reflexivity|]).
  split.
  { rewrite !borders_record_op. cbn [border_of cv_page record_op].
    now rewrite !app_nil_r. }
  split; [cbn [files set_files set_surface]; apply delete_insert_eq|].
  split; [reflexivity|]. split.
  - rewrite !texts_record_op. cbn [text_of cv_page record_op].
    rewrite !app_nil_r, <- !app_assoc. reflexivity.
  - rewrite !fills_record_op. cbn [fill_of cv_page record_op].
    rewrite !app_nil_r, <- !app_assoc. reflexivity.
Qed.

End DrawLabel.

(** ** One label, run forwards *)

Section DrawLabelForward.
Context {num : Type} `{PyNum num} (env : Env num).

Ltac fwd_draw Hnf :=
  erewrite bind_ok by (apply draw_ok; [reflexivity | apply Hnf; reflexivity]).

(** Up to the call of [drawImage]: the temporary file is on disk. *)
Lemma draw_label_before_image self x y d st c w0 w1 w2 img :
  surface st = Some c ->
  py_index (section_widths self) 0 = Ok w0 ->
  py_index (section_widths self) 1 = Ok w1 ->
  py_index (section_widths self) 2 = Ok w2 ->
  qr_make env (qr_value d) = Ok img ->
  (forall op, is_image op = false -> canvas_fault env op = None) ->
  exists c1 qr_x qr_y qr_size,
    cv_filename c1 = cv_filename c /\ cv_title c1 = cv_title c /\
    cv_page c1 = cv_page c /\
    draw_label env self x y d st =
    (drawImage env (temp_qr_file d) qr_x qr_y qr_size qr_size ≫= fun _ =>
     present ← path_exists (temp_qr_file d);
     if present : bool then remove (temp_qr_file d) else mret tt)
      {| files := <[temp_qr_file d := PngFile img]> (files st);
         stdout := stdout st ++ [Line (qr_value d)];
         surface := Some c1 |}.
Proof.
  intros Hc Hw0 Hw1 Hw2 Hqr Hnf. unfold draw_label.
  rewrite Hw0. erewrite bind_ok by reflexivity.
  rewrite Hw1. erewrite bind_ok by reflexivity.
  erewrite bind_ok by (apply draw_ok; [exact Hc | apply Hnf; reflexivity]).
  do 13 fwd_draw Hnf.
  rewrite Hw2. erewrite bind_ok by reflexivity.
  do 2 fwd_draw Hnf.
  erewrite bind_ok by apply print_eq.
  unfold create_qr_code. rewrite Hqr. erewrite bind_ok by reflexivity.
  erewrite bind_ok by reflexivity.
  eexists _, _, _, _. split; [|split; [|split; [|reflexivity]]]; reflexivity.
Qed.

(** With libraries that do not fail, [draw_label] returns. *)
Lemma draw_label_returns self x y d st c w0 w1 w2 img :
  surface st = Some c ->
  py_index (section_widths self) 0 = Ok w0 ->
  py_index (section_widths self) 1 = Ok w1 ->
  py_index (section_widths self) 2 = Ok w2 ->
  qr_make env (qr_value d) = Ok img ->
  (forall op, canvas_fault env op = None) ->
  exists st', draw_label env self x y d st = (st', Ok tt).
Proof.
  intros Hc Hw0 Hw1 Hw2 Hqr Hnf.
  destruct (draw_label_before_image self x y d st c w0 w1 w2 img)
    as (c1 & qx & qy & qs & _ & _ & _ & ->); auto.
  eexists.
  unfold drawImage at 1. unfold mbind at 1, M_mbind, M_bind.
  cbn [files]. rewrite (lookup_insert_eq (files st)).
  erewrite draw_ok by (reflexivity || apply Hnf).
  unfold path_exists, mbind, M_mbind, M_bind.
  cbn [files set_surface]. rewrite (lookup_insert_eq (files st)).
  rewrite bool_decide_eq_true_2 by eauto.
  unfold remove. cbn [files set_surface].
  rewrite (lookup_insert_eq (files st)). reflexivity.
Qed.

(** When the canvas raises on the image, [draw_label] raises and the
    temporary file stays on disk. *)
Lemma draw_label_image_fault self x y d st c w0 w1 w2 img e :
  surface st = Some c ->
  py_index (section_widths self) 0 = Ok w0 ->
  py_index (section_widths self) 1 = Ok w1 ->
  py_index (section_widths self) 2 = Ok w2 ->
  qr_make env (qr_value d) = Ok img ->
  (forall op, canvas_fault env op = if is_image op then Some e else None) ->
  exists st',
    draw_label env self x y d st = (st', Raise e) /\
    files st' = <[temp_qr_file d := PngFile img]> (files st).
Proof.
  intros Hc Hw0 Hw1 Hw2 Hqr Hf.
  destruct (draw_label_before_image self x y d st c w0 w1 w2 img)
    as (c1 & qx & qy & qs & _ & _ & _ & ->); auto.
  { intros op Hop. now rewrite Hf, Hop. }
  eexists. split.
  - unfold drawImage at 1. unfold mbind at 1, M_mbind, M_bind.
    cbn [files]. rewrite (lookup_insert_eq (files st)).
    erewrite draw_fault by (reflexivity || (rewrite Hf; reflexivity)).
    reflexivity.
  - reflexivity.
Qed.

End DrawLabelForward.

(** ** The loop *)

Section Loop.
Context {num : Type} `{PyNum num} (env : Env num).

Lemma grid_cell_ok (cfg : Config num) idx :
  labels_per_page cfg <> 0 ->
  grid_cell cfg idx =
  Ok (idx mod labels_per_page cfg,
      (idx mod labels_per_page cfg) / columns cfg,
      (idx mod labels_per_page cfg) mod columns cfg).
Proof.
  intros Hlpp. unfold grid_cell, py_mod, py_floordiv.
  assert (columns cfg <> 0) as Hcol.
  { intros Hz. apply Hlpp. unfold labels_per_page. now rewrite Hz. }
  apply Z.eqb_neq in Hlpp, Hcol. now rewrite Hlpp, Hcol.
Qed.

Lemma grid_cell_zero_grid (cfg : Config num) idx :
  labels_per_page cfg = 0 -> grid_cell cfg idx = Raise ZeroDivisionError.
Proof. intros Hz. unfold grid_cell, py_mod. now rewrite Hz. Qed.

Lemma showPage_eq (st : State num) c :
  surface st = Some c ->
  showPage st =
  (set_surface
     (Some {| cv_filename := cv_filename c; cv_title := cv_title c;
              cv_page := cv_page c + 1; cv_ops := cv_ops c |}) st,
   Ok tt).
Proof. unfold showPage, with_canvas. now intros ->. Qed.

(** A turn of the loop that returns: the page advances when a page has
    just been filled, and one outline is drawn on the page then current. *)
Lemma place_label_ok_inv self idx row st st' u c :
  surface st = Some c ->
  place_label env self idx row st = (st', Ok u) ->
  exists position_on_page row_num col_num c',
    grid_cell (config self) idx = Ok (position_on_page, row_num, col_num) /\
    surface st' = Some c' /\
    cv_filename c' = cv_filename c /\
    cv_title c' = cv_title c /\
    cv_page c' =
      (if (position_on_page =? 0) && (0 <? idx)
       then cv_page c + 1 else cv_page c) /\
    borders c' =
      borders c ++ [Place (cv_page c') (label_x (config self) col_num)
                     (label_y (config self) row_num)].
Proof.
  intros Hc Hrun. unfold place_label in Hrun.
  lift_inv Hrun cell Hcell. destruct cell as [[pos row_num] col_num].
  exists pos, row_num, col_num.
  bind_inv Hrun u0 Hm. rename st0 into st1.
  assert (exists c0, surface st1 = Some c0 /\
            cv_filename c0 = cv_filename c /\ cv_title c0 = cv_title c /\
            cv_page c0 = (if (pos =? 0) && (0 <? idx)
                          then cv_page c + 1 else cv_page c) /\
            borders c0 = borders c) as (c0 & Hc0 & Hfn & Htt & Hpg & Hb).
  { destruct ((pos =? 0) && (0 <? idx)).
    - rewrite (showPage_eq st c Hc) in Hm. injection Hm as <- _.
      eexists. split; [reflexivity|]. repeat split.
    - injection Hm as <- _. exists c. repeat split. exact Hc. }
  lift_inv Hrun a Ha. lift_inv Hrun b Hb'. lift_inv Hrun col Hcol.
  lift_inv Hrun q Hq.
  destruct (draw_label_ok_inv env _ _ _ _ _ _ _ _ Hc0 Hrun)
    as (c' & img & _ & Hc' & Hfn' & Htt' & Hpg' & Hb'' & _).
  exists c'. split; [exact Hcell|]. split; [exact Hc'|].
  split; [congruence|]. split; [congruence|]. split; [congruence|].
  rewrite Hb'', Hb, Hpg'. reflexivity.
Qed.

Lemma for_rows_ok_inv self df : forall idx st st' u c,
  surface st = Some c ->
  for_rows (place_label env self) idx df st = (st', Ok u) ->
  exists c',
    surface st' = Some c' /\
    cv_filename c' = cv_filename c /\
    cv_title c' = cv_title c /\
    borders c' = borders c ++ layout (config self) idx (length df) (cv_page c).
Proof.
  induction df as [|row df IH]; intros idx st st' u c Hc Hrun.
  - injection Hrun as <- _. exists c. rewrite app_nil_r. auto.
  - cbn [for_rows] in Hrun. bind_inv Hrun u0 Hm.
    destruct (place_label_ok_inv _ _ _ _ _ _ _ Hc Hm)
      as (pos & row_num & col_num & c1 & Hcell & Hc1 & Hfn & Htt & Hpg & Hb).
    destruct (IH _ _ _ _ _ Hc1 Hrun) as (c' & Hc' & Hfn' & Htt' & Hb').
    exists c'. split; [exact Hc'|]. split; [congruence|]. split; [congruence|].
    rewrite Hb', Hb. cbn [length layout]. rewrite Hcell, <- Hpg.
    now rewrite <- app_assoc.
Qed.

Lemma read_data_state file_path (st st' : State num) r :
  read_data file_path st = (st', r) -> st' = st.
Proof.
  unfold read_data, read_csv, read_excel, raise, lift.
  repeat match goal with
         | |- context [if ?b then _ else _] => destruct b
         | |- context [match ?o with Some _ => _ | None => _ end] => destruct o
         | |- context [match ?f with CsvFile _ => _ | _ => _ end] => destruct f
         end; now intros [= <- _].
Qed.

(** A run of [generate_labels] that returns. *)
Lemma generate_labels_ok_inv self data_file output_pdf st st' u :
  generate_labels env self data_file output_pdf st = (st', Ok u) ->
  exists df doc pages,
    read_data data_file st = (st, Ok df) /\
    files st' !! output_pdf = Some (PdfFile doc) /\
    surface st' = Some doc /\
    cv_title doc = "Generated Labels" /\
    borders doc = layout (config self) 0 (length df) 0 /\
    page_count (Z.of_nat (length df)) (labels_per_page (config self))
      = Ok pages /\
    last (stdout st') = Some (Summary output_pdf (Z.of_nat (length df)) pages).
Proof.
  intros Hrun. unfold generate_labels in Hrun.
  bind_inv Hrun df Hm.
  pose proof (read_data_state _ _ _ _ Hm) as ->.
  bind_inv Hrun u1 Hnew. injection Hnew as <- _.
  bind_inv Hrun u2 Htitle. injection Htitle as <- _.
  bind_inv Hrun u3 Hloop.
  eapply for_rows_ok_inv in Hloop; [|reflexivity].
  destruct Hloop as (doc & Hdoc & Hfn & Htt & Hb).
  cbn [cv_filename cv_title cv_page cv_ops borders omap] in Hfn, Htt, Hb.
  bind_inv Hrun u4 Hsave. unfold save, with_canvas in Hsave.
  rewrite Hdoc in Hsave. injection Hsave as <- _.
  lift_inv Hrun pages Hpages. rewrite print_eq in Hrun.
  injection Hrun as <-.
  exists df, doc, pages. split; [exact Hm|].
  cbn [files stdout surface set_files]. rewrite Hfn. cbn [cv_filename].
  split; [apply lookup_insert_eq|]. split; [exact Hdoc|].
  split; [exact Htt|]. split; [exact Hb|]. split; [exact Hpages|].
  apply last_snoc.
Qed.

End Loop.

(** ** The layout in closed form *)

Section Layout.
Context {num : Type} `{PyNum num}.

(** The page before label [idx] is drawn, when every page holds [lpp]
    labels. *)
Lemma page_before_label (lpp idx : Z) :
  0 < lpp -> 0 < idx ->
  (idx - 1) / lpp + (if idx mod lpp =? 0 then 1 else 0) = idx / lpp.
Proof.
  intros Hlpp Hidx.
  pose proof (Z.div_mod idx lpp ltac:(lia)) as Hdm.
  pose proof (Z.mod_pos_bound idx lpp Hlpp) as Hr.
  destruct (Z.eqb_spec (idx mod lpp) 0) as [Hz|Hnz].
  - assert ((idx - 1) / lpp = idx / lpp - 1) as ->; [|lia].
    symmetry. apply (Z.div_unique _ _ _ (lpp - 1)); lia.
  - rewrite Z.add_0_r.
    symmetry. apply (Z.div_unique _ _ _ (idx mod lpp - 1)); lia.
Qed.

Lemma layout_placement (cfg : Config num) :
  0 < labels_per_page cfg ->
  forall n idx page,
    0 <= idx ->
    page = (if idx =? 0 then 0 else (idx - 1) / labels_per_page cfg) ->
    layout cfg idx n page = placement cfg <$> seqZ idx (Z.of_nat n).
Proof.
  intros Hlpp. induction n as [|n IH]; intros idx page Hidx Hpage.
  - reflexivity.
  - rewrite seqZ_cons by lia. cbn [layout fmap list_fmap].
    rewrite grid_cell_ok by lia.
    assert ((if (idx mod labels_per_page cfg =? 0) && (0 <? idx)
             then page + 1 else page) = idx / labels_per_page cfg) as ->.
    { subst page. destruct (Z.eqb_spec idx 0) as [->|Hnz].
      - rewrite Z.mod_0_l, Z.div_0_l by lia. reflexivity.
      - assert (0 < idx) as Hpos by lia.
        pose proof (page_before_label _ _ Hlpp Hpos) as Hp.
        apply Z.ltb_lt in Hpos as ->. rewrite andb_true_r.
        destruct (idx mod labels_per_page cfg =? 0); lia. }
    unfold placement at 1. f_equal.
    replace (Z.pred (Z.of_nat (S n))) with (Z.of_nat n) by lia.
    apply IH; [lia|].
    destruct (Z.eqb_spec (Z.succ idx) 0) as [?|_]; [lia|].
    f_equal. lia.
Qed.

(** The corners do not need a positive grid, only a grid that is not
    empty. *)
Lemma layout_length (cfg : Config num) :
  labels_per_page cfg <> 0 ->
  forall n idx page, length (layout cfg idx n page) = n.
Proof.
  intros Hlpp. induction n as [|n IH]; intros idx page; [reflexivity|].
  cbn [layout]. rewrite grid_cell_ok by exact Hlpp. cbn [length].
  now rewrite IH.
Qed.

Lemma placement_period (cfg : Config num) idx :
  0 < labels_per_page cfg ->
  placement cfg (idx + labels_per_page cfg) =
  Place (idx / labels_per_page cfg + 1)
        (corner_x (placement cfg idx)) (corner_y (placement cfg idx)).
Proof.
  intros Hlpp. unfold placement. cbn [corner_x corner_y].
  replace (idx + labels_per_page cfg)
    with (idx + 1 * labels_per_page cfg) by lia.
  rewrite Z.mod_add, Z.div_add by lia. reflexivity.
Qed.

End Layout.

(** ** Runs that return *)

Section Returns.
Context {num : Type} `{PyNum num} (env : Env num).

Lemma row_get_Some (row : Row) key :
  is_Some (row !! key) -> exists v, row_get row key = Ok v.
Proof. intros [v Hv]. exists v. unfold row_get. now rewrite Hv. Qed.

Lemma place_label_returns self idx row st c :
  reliable env ->
  (3 <= length (section_widths self))%nat ->
  labels_per_page (config self) <> 0 ->
  complete_row row ->
  surface st = Some c ->
  exists st', place_label env self idx row st = (st', Ok tt).
Proof.
  intros [Hqr Hnf] Hw Hlpp (Ha & Hb & Hc & Hq) Hsurf.
  apply row_get_Some in Ha as [a Ha], Hb as [b Hb], Hc as [col Hc],
    Hq as [q Hq].
  unfold place_label. rewrite (grid_cell_ok _ idx Hlpp).
  erewrite bind_ok by reflexivity.
  set (pos := idx mod labels_per_page (config self)).
  assert (exists st1 c1,
            (if (pos =? 0) && (0 <? idx) then showPage else mret tt) st
              = (st1, Ok tt) /\ surface st1 = Some c1)
    as (st1 & c1 & Hturn & Hsurf1).
  { destruct ((pos =? 0) && (0 <? idx)).
    - rewrite (showPage_eq st c Hsurf). eexists _, _. split; reflexivity.
    - exists st, c. split; [reflexivity | exact Hsurf]. }
  erewrite bind_ok by exact Hturn.
  rewrite Ha. erewrite bind_ok by reflexivity.
  rewrite Hb. erewrite bind_ok by reflexivity.
  rewrite Hc. erewrite bind_ok by reflexivity.
  rewrite Hq. erewrite bind_ok by reflexivity.
  destruct (section_widths self) as [|w0 [|w1 [|w2 ws]]] eqn:Hws;
    cbn [length] in Hw; try lia.
  destruct (Hqr q) as [img Himg].
  eapply (draw_label_returns env self _ _ _ st1 c1 w0 w1 w2 img);
    rewrite ?Hws; auto.
Qed.

Lemma for_rows_returns self df : forall idx st c,
  reliable env ->
  (3 <= length (section_widths self))%nat ->
  labels_per_page (config self) <> 0 ->
  Forall complete_row df ->
  surface st = Some c ->
  exists st', for_rows (place_label env self) idx df st = (st', Ok tt).
Proof.
  induction df as [|row df IH]; intros idx st c Hrel Hw Hlpp Hrows Hsurf.
  - exists st. reflexivity.
  - apply Forall_cons in Hrows as [Hrow Hrows]. cbn [for_rows].
    destruct (place_label_returns self idx row st c) as [st1 Hst1]; auto.
    destruct (place_label_ok_inv env _ _ _ _ _ _ _ Hsurf Hst1)
      as (_ & _ & _ & c1 & _ & Hsurf1 & _).
    erewrite bind_ok by exact Hst1.
    now apply (IH (idx + 1) st1 c1).
Qed.

(** [generate_labels] returns on a table it can read, with libraries that
    do not fail and a grid that is not empty. *)
Lemma generate_labels_returns self data_file output_pdf st df :
  reliable env ->
  (3 <= length (section_widths self))%nat ->
  labels_per_page (config self) <> 0 ->
  read_data data_file st = (st, Ok df) ->
  Forall complete_row df ->
  exists st', generate_labels env self data_file output_pdf st = (st', Ok tt).
Proof.
  intros Hrel Hw Hlpp Hread Hrows. unfold generate_labels.
  erewrite bind_ok by exact Hread.
  erewrite bind_ok by reflexivity.
  erewrite bind_ok by reflexivity.
  lazymatch goal with
  | |- exists _, (_ ≫= _) ?s = _ =>
      destruct (for_rows_returns self df 0 s _ Hrel Hw Hlpp Hrows eq_refl)
        as [st1 Hloop]
  end.
  erewrite bind_ok by exact Hloop.
  eapply for_rows_ok_inv in Hloop as (doc & Hdoc & _); [|reflexivity].
  unfold save at 1, with_canvas. unfold mbind at 1, M_mbind, M_bind.
  rewrite Hdoc.
  unfold page_count, py_floordiv.
  apply Z.eqb_neq in Hlpp. rewrite Hlpp.
  eexists. reflexivity.
Qed.

End Returns.

(** ** The text of line 200 *)

(** The text drawn at the top of the third section is eight bytes long:
    the characters U+00E2, U+2020 and U+2018 in UTF-8. *)
Lemma up_arrow_bytes :
  up_arrow =
  String "195" (String "162"
    (String "226" (String "128" (String "160"
      (String "226" (String "128" (String "152" EmptyString))))))) /\
  String.length up_arrow = 8%nat.
Proof. split; reflexivity. Qed.

(** ** Zone headers and colours *)

Section Classification.
Import Text TextFacts.

Lemma contains_false (sub s : string) :
  contains sub s = false <-> ~ Substring sub s.
Proof.
  rewrite <- contains_Substring. destruct (contains sub s); split; intros;
    congruence.
Qed.

Lemma header_text_cases (qr_value : string) :
  header_text qr_value =
  if contains "STOWAGE" qr_value then "AMBIENT"
  else if contains "CHILLER" qr_value then "CHILLED"
  else if contains "FROZEN" qr_value then "FREEZER"
  else "AMBIENT".
Proof. reflexivity. Qed.

Lemma header_text_default (qr_value : string) :
  ~ Substring "STOWAGE" qr_value ->
  ~ Substring "CHILLER" qr_value ->
  ~ Substring "FROZEN" qr_value ->
  header_text qr_value = "AMBIENT".
Proof.
  rewrite <- !contains_false, header_text_cases.
  now intros -> -> ->.
Qed.

(** C1. The header of the middle section is decided by the first of the
    words STOWAGE, CHILLER and FROZEN that the code contains as a block of
    characters, in this order: AMBIENT, CHILLED, FREEZER; and AMBIENT when it
    contains none, the empty code included.  A code with both STOWAGE and
    CHILLER gets AMBIENT. *)
Theorem header_text_priority (qr_value : string) :
  (Substring "STOWAGE" qr_value -> header_text qr_value = "AMBIENT") /\
  (~ Substring "STOWAGE" qr_value -> Substring "CHILLER" qr_value ->
   header_text qr_value = "CHILLED") /\
  (~ Substring "STOWAGE" qr_value -> ~ Substring "CHILLER" qr_value ->
   Substring "FROZEN" qr_value -> header_text qr_value = "FREEZER") /\
  (~ Substring "STOWAGE" qr_value -> ~ Substring "CHILLER" qr_value ->
   ~ Substring "FROZEN" qr_value -> header_text qr_value = "AMBIENT") /\
  (Substring "STOWAGE" qr_value -> Substring "CHILLER" qr_value ->
   header_text qr_value = "AMBIENT") /\
  header_text "" = "AMBIENT".
Proof.
  rewrite <- !contains_false, <- !contains_Substring, header_text_cases.
  split; [|split; [|split; [|split; [|split]]]].
  - now intros ->.
  - now intros -> ->.
  - now intros -> -> ->.
  - now intros -> -> ->.
  - now intros -> _.
  - reflexivity.
Qed.

Lemma header_text_priority_example :
  header_text "STOWAGE-CHILLER-7" = "AMBIENT" /\
  header_text "CHILLER-FROZEN-7" = "CHILLED" /\
  header_text "BAY-FROZEN-7" = "FREEZER" /\
  header_text "BAY-7" = "AMBIENT".
Proof.
  destruct (header_text_priority "STOWAGE-CHILLER-7") as (H1 & _).
  destruct (header_text_priority "CHILLER-FROZEN-7") as (_ & H2 & _).
  destruct (header_text_priority "BAY-FROZEN-7") as (_ & _ & H3 & _).
  destruct (header_text_priority "BAY-7") as (_ & _ & _ & H4 & _).
  split; [|split; [|split]].
  - apply H1. apply contains_Substring. reflexivity.
  - apply H2; [apply contains_false | apply contains_Substring]; reflexivity.
  - apply H3; [apply contains_false | apply contains_false
              | apply contains_Substring]; reflexivity.
  - apply H4; apply contains_false; reflexivity.
Defined.

(** A name whose lower-case form is a key of the table gets the colour of
    that key, in whatever case it is written. *)
Lemma color_of_lower_key (color_name key : string) (c : Color) :
  color_dict !! key = Some c ->
  lower color_name = key ->
  get_background_color color_name = c.
Proof.
  intros Hkey Hlower. unfold get_background_color.
  rewrite Hlower, Hkey. reflexivity.
Qed.

(** C10. The search for the three words is case-sensitive: a code with none
    of them in upper case gets the default header, whatever it holds in
    other cases, so that chiller, Chiller, frozen and Frozen get AMBIENT
    where CHILLER gets CHILLED and FROZEN gets FREEZER.  The colour lookup
    is not: the name is put in lower case before it is looked up, so that a
    name whose lower-case form is a key of the table gets the colour of
    that key, and each of the ten keys is matched when written with upper
    case letters; the colour depends on the lower-case form of the name
    only, while two codes with the same lower-case form can get different
    headers. *)
Theorem header_text_case_sensitive (qr_value : string) :
  ~ Substring "STOWAGE" qr_value ->
  ~ Substring "CHILLER" qr_value ->
  ~ Substring "FROZEN" qr_value ->
  header_text qr_value = "AMBIENT" /\
  (forall a b, lower a = lower b ->
               get_background_color a = get_background_color b) /\
  (exists a b, lower a = lower b /\ header_text a <> header_text b) /\
  (forall color_name key c,
     color_dict !! key = Some c -> lower color_name = key ->
     get_background_color color_name = c) /\
  get_background_color <$>
    ["RED"; "Green"; "BLUE"; "Yellow"; "ORANGE"; "Purple"; "PINK"; "Gray";
     "LightGray"; "WHITE"; "rEd"; "bLUE"]
  = [red; green; blue; yellow; orange; purple; pink; gray; lightgrey; white;
     red; blue] /\
  get_background_color <$>
    ["red"; "green"; "blue"; "yellow"; "orange"; "purple"; "pink"; "gray";
     "lightgray"; "white"]
  = [red; green; blue; yellow; orange; purple; pink; gray; lightgrey; white] /\
  header_text <$>
    ["CHILLER"; "chiller"; "Chiller"; "FROZEN"; "frozen"; "Frozen";
     "STOWAGE"; "stowage"]
  = ["CHILLED"; "AMBIENT"; "AMBIENT"; "FREEZER"; "AMBIENT"; "AMBIENT";
     "AMBIENT"; "AMBIENT"] /\
  (exists color_name zone,
     lower color_name = "red" /\ lower zone = lower "CHILLER" /\
     get_background_color color_name = get_background_color "red" /\
     get_background_color color_name <> white /\
     header_text zone <> header_text "CHILLER" /\
     header_text zone = "AMBIENT").
Proof.
  intros Hs Hc Hf. split; [|split; [|split; [|split; [|split; [|split]]]]].
  - now apply header_text_default.
  - intros a b Hab. unfold get_background_color. now rewrite Hab.
  - exists "CHILLER-C5-D1", "chiller-c5-d1". split; [reflexivity|].
    discriminate.
  - exact color_of_lower_key.
  - reflexivity.
  - reflexivity.
  - split; [reflexivity|].
    exists "RED", "chiller". repeat split; discriminate.
Qed.

Lemma header_text_case_sensitive_example :
  header_text "Frozen-chiller-stowage" = "AMBIENT" /\
  get_background_color "RED" = red /\
  get_background_color "LightGray" = lightgrey /\
  header_text <$>
    ["CHILLER"; "chiller"; "Chiller"; "FROZEN"; "frozen"; "Frozen";
     "STOWAGE"; "stowage"]
  = ["CHILLED"; "AMBIENT"; "AMBIENT"; "FREEZER"; "AMBIENT"; "AMBIENT";
     "AMBIENT"; "AMBIENT"].
Proof.
  destruct (header_text_case_sensitive "Frozen-chiller-stowage")
    as (Hdefault & _ & _ & Hkey & _ & _ & Hzones & _);
    [apply contains_false; reflexivity ..|].
  split; [exact Hdefault|].
  split; [apply (Hkey "RED" "red" red); reflexivity|].
  split; [apply (Hkey "LightGray" "lightgray" lightgrey); reflexivity|].
  exact Hzones.
Defined.

(** C6. A colour name whose lower-case form is not a key of the table gets
    white, the colour of the name white itself; no error is raised. *)
Theorem unknown_color_is_white (color_name : string) :
  color_dict !! lower color_name = None ->
  get_background_color color_name = white /\
  get_background_color color_name = get_background_color "white".
Proof.
  intros Hnone. unfold get_background_color at 1 2. rewrite Hnone.
  split; reflexivity.
Qed.

Lemma unknown_color_is_white_example :
  get_background_color "turquoise" = white /\
  get_background_color "turquoise" = get_background_color "white".
Proof. apply (unknown_color_is_white "turquoise"). reflexivity. Defined.

Lemma lower_examples :
  lower "LightGRAY" = "lightgray" /\
  lower "PINK" = "pink" /\
  lower (String.app "PIN" (String "226" (String "132" (String "170" ""))))
    = "pink" /\
  get_background_color "Blue" = blue /\
  get_background_color "LIGHTGRAY" = lightgrey /\
  get_background_color "lightgrey" = white.
Proof. repeat split. Qed.

Lemma color_dict_keys (name : string) :
  color_dict !! name = None <->
  name ∉ ["red"; "green"; "blue"; "yellow"; "orange"; "purple"; "pink";
          "gray"; "lightgray"; "white"].
Proof.
  unfold color_dict. rewrite !lookup_insert_None, lookup_empty.
  rewrite !not_elem_of_cons, elem_of_nil. intuition congruence.
Qed.

End Classification.

(** ** Placement of labels *)

Section Placement.
Context {num : Type} `{PyNum num}.

(** The cell of a label on a grid that is not empty, and its corner. *)
Lemma grid_cell_row_major (cfg : Config num) (idx : Z) :
  labels_per_page cfg <> 0 ->
  let position_on_page := idx mod labels_per_page cfg in
  let row_num := position_on_page / columns cfg in
  let col_num := position_on_page mod columns cfg in
  grid_cell cfg idx = Ok (position_on_page, row_num, col_num) /\
  position_on_page = row_num * columns cfg + col_num /\
  label_x cfg col_num =
    (left_margin cfg + of_int col_num * (label_width cfg + h_gap cfg))%num /\
  label_y cfg row_num =
    (page_height cfg - top_margin cfg
     - of_int (row_num + 1) * label_height cfg
     - of_int row_num * v_gap cfg)%num /\
  (forall page, exists page',
     layout cfg idx 1 page =
     [Place page' (label_x cfg col_num) (label_y cfg row_num)]) /\
  (0 < columns cfg -> 0 < rows cfg ->
   0 <= col_num < columns cfg /\ 0 <= row_num < rows cfg).
Proof.
  intros Hlpp position_on_page row_num col_num.
  assert (columns cfg <> 0) as Hcol.
  { intros Hz. apply Hlpp. unfold labels_per_page. now rewrite Hz. }
  split; [now apply grid_cell_ok|].
  split.
  { subst row_num col_num.
    rewrite (Z.div_mod position_on_page (columns cfg) Hcol) at 1. lia. }
  split; [reflexivity|]. split; [reflexivity|].
  split.
  { intros page. cbn [layout]. rewrite grid_cell_ok by exact Hlpp.
    eexists. reflexivity. }
  intros Hc Hr.
  assert (0 <= position_on_page < columns cfg * rows cfg) as Hpos.
  { apply Z.mod_pos_bound. unfold labels_per_page in *. nia. }
  split; [apply Z.mod_pos_bound; lia|]. split.
  - apply Z.div_pos; lia.
  - apply Z.div_lt_upper_bound; lia.
Qed.

End Placement.

(** In exact arithmetic the rows go down the page and the columns go to the
    right, by the height and the width of a cell; the top of row 0 is the
    top margin. *)
Lemma rows_go_down_exact (cfg : Config Q) (row_num : Z) :
  (label_y cfg (row_num + 1)
   == label_y cfg row_num - (label_height cfg + v_gap cfg))%Q.
Proof.
  unfold label_y. cbn [nadd nsub nmul of_int exact_num].
  rewrite !inject_Z_plus. change (inject_Z 1) with 1%Q. ring.
Qed.

Lemma columns_go_right_exact (cfg : Config Q) (col_num : Z) :
  (label_x cfg (col_num + 1)
   == label_x cfg col_num + (label_width cfg + h_gap cfg))%Q.
Proof.
  unfold label_x. cbn [nadd nsub nmul of_int exact_num].
  rewrite !inject_Z_plus. change (inject_Z 1) with 1%Q. ring.
Qed.

Lemma row_zero_at_top_exact (cfg : Config Q) :
  (label_y cfg 0 + label_height cfg == page_height cfg - top_margin cfg)%Q.
Proof.
  unfold label_y. cbn [nadd nsub nmul of_int exact_num].
  change (inject_Z (0 + 1)) with 1%Q. change (inject_Z 0) with 0%Q. ring.
Qed.

Lemma label_y_from_top_exact (cfg : Config Q) (row_num : Z) :
  (label_y cfg row_num
   == label_y cfg 0 - inject_Z row_num * (label_height cfg + v_gap cfg))%Q.
Proof.
  unfold label_y. cbn [nadd nsub nmul of_int exact_num].
  rewrite !inject_Z_plus. change (inject_Z 1) with 1%Q.
  change (inject_Z 0) with 0%Q. ring.
Qed.

(** The ten rows of the default page, in binary64, from the top. *)
Lemma default_rows :
  label_y (@default_config float _) <$> seqZ 0 10 =
  [684; 612; 540; 468; 396; 324; 252; 180; 108; 36]%float.
Proof. reflexivity. Qed.

(** C2. For a grid that is not empty, the cell of label [idx] is found
    rows first: its position on the page is [idx mod labels_per_page], its
    row the quotient and its column the remainder of that position by the
    number of columns; its corner is
    [x = left_margin + col_num * (label_width + h_gap)] and
    [y = page_height - top_margin - (row_num + 1) * label_height
         - row_num * v_gap].  This is the corner the loop of
    [generate_labels] uses, and on a grid with positive sides the cell is
    inside the grid.

    Row 0 is the topmost row when the sides of the grid are positive and
    [label_height + v_gap] is not negative.  In exact arithmetic: no row
    has a negative number, the top of row 0 is [page_height - top_margin],
    row [row_num] is [row_num * (label_height + v_gap)] below row 0, so no
    label is higher than row 0, and every other row is lower when
    [label_height + v_gap] is positive.  In binary64 the ten rows of the
    default page are at 684, 612, ..., 36 points, from the top. *)
Theorem label_placement_row_major :
  (forall (num : Type) (N : PyNum num) (cfg : Config num) (idx : Z),
     labels_per_page cfg <> 0 ->
     let position_on_page := idx mod labels_per_page cfg in
     let row_num := position_on_page / columns cfg in
     let col_num := position_on_page mod columns cfg in
     grid_cell cfg idx = Ok (position_on_page, row_num, col_num) /\
     position_on_page = row_num * columns cfg + col_num /\
     label_x cfg col_num =
       (left_margin cfg + of_int col_num * (label_width cfg + h_gap cfg))%num /\
     label_y cfg row_num =
       (page_height cfg - top_margin cfg
        - of_int (row_num + 1) * label_height cfg
        - of_int row_num * v_gap cfg)%num /\
     (forall page, exists page',
        layout cfg idx 1 page =
        [Place page' (label_x cfg col_num) (label_y cfg row_num)]) /\
     (0 < columns cfg -> 0 < rows cfg ->
      0 <= col_num < columns cfg /\ 0 <= row_num < rows cfg)) /\
  (forall (cfg : Config Q) (idx : Z),
     0 < columns cfg -> 0 < rows cfg ->
     (0 <= label_height cfg + v_gap cfg)%Q ->
     let row_num := (idx mod labels_per_page cfg) / columns cfg in
     0 <= row_num < rows cfg /\
     (label_y cfg 0 + label_height cfg == page_height cfg - top_margin cfg)%Q /\
     (label_y cfg row_num
      == label_y cfg 0 - inject_Z row_num * (label_height cfg + v_gap cfg))%Q /\
     (label_y cfg row_num <= label_y cfg 0)%Q /\
     (0 < row_num -> (0 < label_height cfg + v_gap cfg)%Q ->
      (label_y cfg row_num < label_y cfg 0)%Q)) /\
  label_y (@default_config float _) <$> seqZ 0 10 =
  [684; 612; 540; 468; 396; 324; 252; 180; 108; 36]%float.
Proof.
  split; [|split].
  - intros num N cfg idx. apply grid_cell_row_major.
  - intros cfg idx Hc Hr Hstep row_num.
    assert (labels_per_page cfg <> 0) as Hlpp
      by (unfold labels_per_page; nia).
    destruct (grid_cell_row_major cfg idx Hlpp)
      as (_ & _ & _ & _ & _ & Hin).
    destruct (Hin Hc Hr) as [_ Hrow]. fold row_num in Hrow.
    pose proof (label_y_from_top_exact cfg row_num) as Hy.
    assert (0 <= inject_Z row_num)%Q as Hq.
    { change 0%Q with (inject_Z 0). rewrite <- Zle_Qle. lia. }
    split; [exact Hrow|]. split; [apply row_zero_at_top_exact|].
    split; [exact Hy|]. split.
    + pose proof (Qmult_le_0_compat _ _ Hq Hstep) as Hm.
      rewrite Hy. lra.
    + intros Hpos Hstrict.
      assert (0 < inject_Z row_num)%Q as Hq'.
      { change 0%Q with (inject_Z 0). rewrite <- Zlt_Qlt. lia. }
      pose proof (Qmult_lt_0_compat _ _ Hq' Hstrict) as Hm.
      rewrite Hy. lra.
  - reflexivity.
Qed.

Lemma label_placement_row_major_example :
  (grid_cell (@default_config float _) 34 = Ok (4, 1, 1) /\
   4 = 1 * 3 + 1 /\
   label_x (@default_config float _) 1 =
     (of_lit 0.19 * inch + of_int 1 * (of_lit 2.625 * inch + of_lit 0.125 * inch))%num /\
   label_y (@default_config float _) 1 = 612%float /\
   (forall page, exists page',
      layout (@default_config float _) 34 1 page =
      [Place page' (label_x default_config 1) (label_y default_config 1)]) /\
   (0 < 3 -> 0 < 10 -> 0 <= 1 < 3 /\ 0 <= 1 < 10)) /\
  (let cfg := @default_config Q _ in
   0 <= 1 < 10 /\
   (label_y cfg 0 + label_height cfg == page_height cfg - top_margin cfg)%Q /\
   (label_y cfg 1
    == label_y cfg 0 - inject_Z 1 * (label_height cfg + v_gap cfg))%Q /\
   (label_y cfg 1 <= label_y cfg 0)%Q /\
   (0 < 1 -> (0 < label_height cfg + v_gap cfg)%Q ->
    (label_y cfg 1 < label_y cfg 0)%Q)).
Proof.
  assert (labels_per_page (@default_config float _) <> 0) as Hgrid
    by (vm_compute; discriminate).
  assert (0 <= label_height (@default_config Q _)
               + v_gap (@default_config Q _))%Q as Hstep
    by (vm_compute; discriminate).
  split.
  - exact (proj1 label_placement_row_major float _ default_config 34 Hgrid).
  - exact (proj1 (proj2 label_placement_row_major) default_config 34
             eq_refl eq_refl Hstep).
Defined.

(** C2 does not hold for every configuration.  A grid with no column has
    no cell: the position on the page cannot be computed, and
    [generate_labels] raises at the first row.  On a grid with a negative
    number of rows the cells are found, in rows with negative numbers, and
    row 0 is not the topmost: row -10 is 720 points above it. *)
Lemma placement_counterexamples :
  (labels_per_page (config Example.no_columns) = 0 /\
   grid_cell (config Example.no_columns) 0 = Raise ZeroDivisionError /\
   (forall cell, grid_cell (config Example.no_columns) 0 <> Ok cell) /\
   snd (generate_labels Example.env Example.no_columns "locations.csv"
          "labels.pdf" Example.start) = Raise ZeroDivisionError) /\
  (labels_per_page Example.negative_rows = -30 /\
   grid_cell Example.negative_rows 1 = Ok (-29, -10, 1) /\
   label_y Example.negative_rows 0 = 684%float /\
   label_y Example.negative_rows (-10) = 1404%float /\
   PrimFloat.ltb (label_y Example.negative_rows 0)
     (label_y Example.negative_rows (-10)) = true).
Proof.
  split.
  - split; [reflexivity|]. split; [reflexivity|].
    split; [intros cell; discriminate|]. vm_compute. reflexivity.
  - repeat split.
Qed.

(** ** Pages *)

Section Pages.
Context {num : Type} `{PyNum num}.

(** C3. In a run of [generate_labels] that returns, on a grid of
    [labels_per_page > 0] cells, the outline of label [i] is on page
    [i div labels_per_page] of the document, at the corner of its cell.
    The positions repeat from page to page: label [idx + labels_per_page]
    is one page further at the corner of label [idx], the labels
    [0 .. labels_per_page - 1] are on page 0, and label [labels_per_page]
    opens page 1 at the corner of label 0. *)
Theorem label_page_and_period (env : Env num) self data_file output_pdf
    (st st' : State num) :
  0 < labels_per_page (config self) ->
  generate_labels env self data_file output_pdf st = (st', Ok tt) ->
  let cfg := config self in
  let lpp := labels_per_page cfg in
  exists df doc,
    read_data data_file st = (st, Ok df) /\
    files st' !! output_pdf = Some (PdfFile doc) /\
    length (borders doc) = length df /\
    (forall i : nat, (i < length df)%nat ->
       borders doc !! i = Some (placement cfg (Z.of_nat i)) /\
       page_index (placement cfg (Z.of_nat i)) = Z.of_nat i / lpp) /\
    (forall idx, 0 <= idx ->
       placement cfg (idx + lpp) =
       Place (idx / lpp + 1)
             (corner_x (placement cfg idx)) (corner_y (placement cfg idx))) /\
    (forall idx, 0 <= idx < lpp -> page_index (placement cfg idx) = 0) /\
    placement cfg lpp =
      Place 1 (corner_x (placement cfg 0)) (corner_y (placement cfg 0)).
Proof.
  intros Hlpp Hrun cfg lpp.
  destruct (generate_labels_ok_inv env _ _ _ _ _ _ Hrun)
    as (df & doc & pages & Hread & Hfile & _ & _ & Hb & _).
  rewrite (layout_placement cfg Hlpp (length df) 0 0) in Hb by (lia || reflexivity).
  exists df, doc. split; [exact Hread|]. split; [exact Hfile|].
  split; [now rewrite Hb, length_fmap, length_seqZ, Nat2Z.id|].
  split.
  { intros i Hi. split; [|reflexivity].
    rewrite Hb, list_lookup_fmap, lookup_seqZ_lt by lia. reflexivity. }
  split; [intros idx _; now apply placement_period|].
  split.
  { intros idx Hidx. unfold placement. cbn [page_index].
    apply Z.div_small. exact Hidx. }
  replace lpp with (0 + lpp) at 1 by lia.
  subst lpp cfg. rewrite placement_period by exact Hlpp.
  now rewrite Z.div_0_l by lia.
Qed.

(** C4. The closing message of a run that returns, on a grid of
    [labels_per_page > 0] cells, reports the number of rows and the least
    number of pages that hold them: 0 for no row, and
    [(total - 1) div labels_per_page + 1] otherwise.  With 30 labels on a
    page, 0, 1, 30 and 31 rows give 0, 1, 1 and 2 pages. *)
Theorem reported_page_count (env : Env num) self data_file output_pdf
    (st st' : State num) :
  0 < labels_per_page (config self) ->
  generate_labels env self data_file output_pdf st = (st', Ok tt) ->
  let lpp := labels_per_page (config self) in
  exists df pages,
    let total := Z.of_nat (length df) in
    read_data data_file st = (st, Ok df) /\
    last (stdout st') = Some (Summary output_pdf total pages) /\
    page_count total lpp = Ok pages /\
    (pages - 1) * lpp < total <= pages * lpp /\
    (total = 0 -> pages = 0) /\
    (1 <= total -> pages = (total - 1) / lpp + 1) /\
    page_count 0 30 = Ok 0 /\ page_count 1 30 = Ok 1 /\
    page_count 30 30 = Ok 1 /\ page_count 31 30 = Ok 2.
Proof.
  intros Hlpp Hrun lpp.
  destruct (generate_labels_ok_inv env _ _ _ _ _ _ Hrun)
    as (df & doc & pages & Hread & _ & _ & _ & _ & Hpages & Hout).
  exists df, pages. cbv zeta.
  split; [exact Hread|]. split; [exact Hout|]. split; [exact Hpages|].
  unfold page_count, py_floordiv in Hpages. fold lpp in Hpages.
  destruct (Z.eqb_spec lpp 0) as [?|_]; [lia|].
  injection Hpages as <-.
  set (total := Z.of_nat (length df)).
  pose proof (Z.div_mod (total - 1) lpp ltac:(lia)) as Hdm.
  pose proof (Z.mod_pos_bound (total - 1) lpp Hlpp) as Hr.
  split; [nia|]. split.
  - intros Hz. rewrite Hz. change (0 - 1) with (-1).
    assert (-1 / lpp = -1) as ->; [|reflexivity].
    symmetry. apply (Z.div_unique _ _ _ (lpp - 1)); lia.
  - split; [reflexivity|]. repeat split.
Qed.

(** X14. The count reported is the number of pages the document uses: one
    more than the page of the last label. *)
Lemma reported_pages_match_document (env : Env num) self data_file output_pdf
    (st st' : State num) :
  0 < labels_per_page (config self) ->
  generate_labels env self data_file output_pdf st = (st', Ok tt) ->
  exists df doc pages,
    read_data data_file st = (st, Ok df) /\
    files st' !! output_pdf = Some (PdfFile doc) /\
    last (stdout st') =
      Some (Summary output_pdf (Z.of_nat (length df)) pages) /\
    (df <> [] ->
     exists p, last (borders doc) = Some p /\ pages = page_index p + 1).
Proof.
  intros Hlpp Hrun.
  destruct (generate_labels_ok_inv env _ _ _ _ _ _ Hrun)
    as (df & doc & pages & Hread & Hfile & _ & _ & Hb & Hpages & Hout).
  exists df, doc, pages. split; [exact Hread|]. split; [exact Hfile|].
  split; [exact Hout|]. intros Hne.
  rewrite (layout_placement _ Hlpp (length df) 0 0) in Hb
    by (lia || reflexivity).
  destruct (length df) as [|n] eqn:Hlen.
  { destruct df; [contradiction | discriminate]. }
  rewrite seqZ_S, fmap_app in Hb. cbn [fmap list_fmap] in Hb.
  eexists. split; [rewrite Hb; apply last_snoc|].
  unfold page_count, py_floordiv in Hpages.
  destruct (Z.eqb_spec (labels_per_page (config self)) 0) as [?|_]; [lia|].
  injection Hpages as <-. unfold placement. cbn [page_index].
  do 2 f_equal. lia.
Qed.

(** C9. The layout does not depend on what the rows hold: two runs of one
    generator that return, on tables with the same number of rows, in any
    worlds, draw their outlines on the same pages at the same corners;
    the layout is fixed by the configuration and the number of rows. *)
Theorem layout_deterministic (env1 env2 : Env num) self
    file1 file2 out1 out2 (st1 st2 st1' st2' : State num) df1 df2 :
  read_data file1 st1 = (st1, Ok df1) ->
  read_data file2 st2 = (st2, Ok df2) ->
  length df1 = length df2 ->
  generate_labels env1 self file1 out1 st1 = (st1', Ok tt) ->
  generate_labels env2 self file2 out2 st2 = (st2', Ok tt) ->
  exists doc1 doc2,
    files st1' !! out1 = Some (PdfFile doc1) /\
    files st2' !! out2 = Some (PdfFile doc2) /\
    borders doc1 = borders doc2 /\
    borders doc1 = layout (config self) 0 (length df1) 0.
Proof.
  intros Hr1 Hr2 Hlen Hrun1 Hrun2.
  destruct (generate_labels_ok_inv env1 _ _ _ _ _ _ Hrun1)
    as (df1' & doc1 & _ & Hread1 & Hfile1 & _ & _ & Hb1 & _).
  destruct (generate_labels_ok_inv env2 _ _ _ _ _ _ Hrun2)
    as (df2' & doc2 & _ & Hread2 & Hfile2 & _ & _ & Hb2 & _).
  assert (df1' = df1) as -> by congruence.
  assert (df2' = df2) as -> by congruence.
  exists doc1, doc2. split; [exact Hfile1|]. split; [exact Hfile2|].
  split; [|exact Hb1]. now rewrite Hb1, Hb2, Hlen.
Qed.

End Pages.

Lemma example_run :
  generate_labels Example.env Example.generator "locations.csv" "labels.pdf"
    Example.start = (Example.finish, Ok tt).
Proof. vm_compute. reflexivity. Qed.

Lemma example_run_other :
  generate_labels Example.env Example.generator "other.xlsx" "other.pdf"
    Example.start = (Example.finish_other, Ok tt).
Proof. vm_compute. reflexivity. Qed.

Lemma example_read :
  read_data "locations.csv" Example.start =
  (Example.start, Ok [Example.row1; Example.row2]).
Proof. reflexivity. Qed.

Lemma example_read_other :
  read_data "other.xlsx" Example.start =
  (Example.start, Ok [Example.row2; Example.row1]).
Proof. reflexivity. Qed.

Lemma example_grid : 0 < labels_per_page (config Example.generator).
Proof. reflexivity. Qed.

(** The run on the two rows of the example: one page, the two labels in
    the first two cells of the top row, headers AMBIENT and CHILLED, fills
    blue and red, and no temporary file. *)
Lemma example_document :
  exists doc,
    files Example.finish !! "labels.pdf" = Some (PdfFile doc) /\
    borders doc =
      [Place 0 (label_x default_config 0) (label_y default_config 0);
       Place 0 (label_x default_config 1) (label_y default_config 0)] /\
    texts doc =
      ["AISLE"; "A12"; "AMBIENT"; "B3"; up_arrow;
       "AISLE"; "C5"; "CHILLED"; "D1"; up_arrow] /\
    fills doc = [blue; black; red; black] /\
    stdout Example.finish =
      [Line "STOWAGE-A12-B3"; Line "CHILLER-C5-D1"; Summary "labels.pdf" 2 1] /\
    files Example.finish !! "temp_qr_A12_B3.png" = None /\
    files Example.finish !! "temp_qr_C5_D1.png" = None.
Proof. eexists. repeat split. Qed.

(** No row: the document is saved and no page is reported. *)
Lemma example_empty_table :
  exists st',
    generate_labels Example.env Example.generator "empty.csv" "labels.pdf"
      Example.start = (st', Ok tt) /\
    stdout st' = [Summary "labels.pdf" 0 0].
Proof. eexists. split; vm_compute; reflexivity. Qed.

Lemma label_page_and_period_example :
  exists doc,
    files Example.finish !! "labels.pdf" = Some (PdfFile doc) /\
    length (borders doc) = 2%nat /\
    borders doc !! 1%nat = Some (placement default_config 1) /\
    page_index (placement (@default_config float _) 1) = 1 / 30 /\
    placement (@default_config float _) (1 + 30) =
      Place (1 / 30 + 1) (corner_x (placement default_config 1))
            (corner_y (placement default_config 1)).
Proof.
  destruct (label_page_and_period Example.env Example.generator
              "locations.csv" "labels.pdf" Example.start Example.finish
              example_grid example_run)
    as (df & doc & Hread & Hfile & Hlen & Hat & Hperiod & _).
  rewrite example_read in Hread. injection Hread as <-.
  exists doc. split; [exact Hfile|]. split; [exact Hlen|].
  destruct (Hat 1%nat) as [Hb Hp]; [cbn; lia|].
  split; [exact Hb|]. split; [exact Hp|].
  apply (Hperiod 1). lia.
Defined.

Lemma reported_page_count_example :
  last (stdout Example.finish) = Some (Summary "labels.pdf" 2 1).
Proof.
  destruct (reported_page_count Example.env Example.generator
              "locations.csv" "labels.pdf" Example.start Example.finish
              example_grid example_run)
    as (df & pages & Hread & Hout & Hpages & _).
  rewrite example_read in Hread. injection Hread as <-.
  cbn [length] in Hout, Hpages. injection Hpages as <-. exact Hout.
Defined.

Lemma layout_deterministic_example :
  exists doc1 doc2,
    files Example.finish !! "labels.pdf" = Some (PdfFile doc1) /\
    files Example.finish_other !! "other.pdf" = Some (PdfFile doc2) /\
    borders doc1 = borders doc2 /\
    borders doc1 = layout default_config 0 2 0.
Proof.
  exact (layout_deterministic Example.env Example.env Example.generator
           "locations.csv" "other.xlsx" "labels.pdf" "other.pdf"
           Example.start Example.start Example.finish Example.finish_other
           [Example.row1; Example.row2] [Example.row2; Example.row1]
           example_read example_read_other eq_refl
           example_run example_run_other).
Defined.

(** ** Input format *)

Section Format.
Context {num : Type} `{PyNum num} (env : Env num).
Import Text TextFacts.

Lemma read_data_unsupported data_file (st : State num) :
  ~ Suffix ".csv" data_file ->
  ~ Suffix ".xlsx" data_file ->
  ~ Suffix ".xls" data_file ->
  read_data data_file st = (st, Raise unsupported).
Proof.
  rewrite <- !endswith_Suffix_false. unfold read_data. now intros -> -> ->.
Qed.

Lemma read_data_supported data_file (st : State num) :
  Suffix ".csv" data_file \/ Suffix ".xlsx" data_file \/
  Suffix ".xls" data_file ->
  read_data data_file st = read_csv data_file st \/
  read_data data_file st = read_excel data_file st.
Proof.
  rewrite <- !endswith_Suffix. unfold read_data.
  destruct (endswith data_file ".csv"); [now left|].
  intros [?|[->| ->]]; [discriminate| |]; right; [reflexivity|].
  now rewrite orb_true_r.
Qed.

Lemma read_data_ok_suffix data_file (st st' : State num) df :
  read_data data_file st = (st', Ok df) ->
  Suffix ".csv" data_file \/ Suffix ".xlsx" data_file \/
  Suffix ".xls" data_file.
Proof.
  rewrite <- !endswith_Suffix. unfold read_data.
  destruct (endswith data_file ".csv"); [now left|].
  destruct (endswith data_file ".xlsx"); [now (right; left)|].
  destruct (endswith data_file ".xls"); [now (right; right)|].
  cbn [orb]. discriminate.
Qed.

(** C7. When the path of the table ends in none of [.csv], [.xlsx] and
    [.xls], [read_data] raises the error of an unsupported format, and so
    does [generate_labels], in the state it was called in: no canvas has
    been made, no file written, nothing printed.  When the path ends in one
    of the three, [read_data] hands the path to the reader of that format
    and does not raise this error. *)
Theorem unsupported_format_before_rendering self data_file output_pdf
    (st : State num) :
  (~ Suffix ".csv" data_file -> ~ Suffix ".xlsx" data_file ->
   ~ Suffix ".xls" data_file ->
   read_data data_file st = (st, Raise unsupported) /\
   generate_labels env self data_file output_pdf st
     = (st, Raise unsupported)) /\
  (Suffix ".csv" data_file \/ Suffix ".xlsx" data_file \/
   Suffix ".xls" data_file ->
   (read_data data_file st = read_csv data_file st \/
    read_data data_file st = read_excel data_file st) /\
   forall st' msg, read_data data_file st <> (st', Raise (ValueError msg))).
Proof.
  split.
  - intros Hcsv Hxlsx Hxls.
    pose proof (read_data_unsupported data_file st Hcsv Hxlsx Hxls) as Hread.
    split; [exact Hread|].
    unfold generate_labels. now rewrite (bind_raise _ _ _ _ _ Hread).
  - intros Hext. pose proof (read_data_supported data_file st Hext) as Hread.
    split; [exact Hread|]. intros st' msg.
    destruct Hread as [-> | ->]; unfold read_csv, read_excel;
      destruct (files st !! data_file) as [[]|]; discriminate.
Qed.

End Format.

Lemma unsupported_format_before_rendering_example :
  generate_labels Example.env Example.generator "locations.txt" "labels.pdf"
    Example.start = (Example.start, Raise unsupported) /\
  generate_labels Example.env Example.generator "locations.CSV" "labels.pdf"
    Example.start = (Example.start, Raise unsupported) /\
  read_data "locations.csv" Example.start
    <> (Example.start, Raise unsupported).
Proof.
  split; [|split].
  - apply (unsupported_format_before_rendering Example.env Example.generator
             "locations.txt" "labels.pdf" Example.start);
      apply TextFacts.endswith_Suffix_false; reflexivity.
  - apply (unsupported_format_before_rendering Example.env Example.generator
             "locations.CSV" "labels.pdf" Example.start);
      apply TextFacts.endswith_Suffix_false; reflexivity.
  - apply (unsupported_format_before_rendering Example.env Example.generator
             "locations.csv" "labels.pdf" Example.start).
    left. apply TextFacts.endswith_Suffix. reflexivity.
Defined.

(** ** The temporary image file *)

Section TempFile.
Context {num : Type} `{PyNum num} (env : Env num).

(** When [draw_label] returns, the temporary file is gone. *)
Lemma temp_file_removed_on_return self x y d (st st' : State num) c :
  surface st = Some c ->
  draw_label env self x y d st = (st', Ok tt) ->
  files st' !! temp_qr_file d = None.
Proof.
  intros Hc Hrun.
  destruct (draw_label_ok_inv env _ _ _ _ _ _ _ _ Hc Hrun)
    as (c' & img & _ & _ & _ & _ & _ & _ & Hfiles & _).
  rewrite Hfiles. apply lookup_delete_eq.
Qed.

(** C8, as the code has it.  The temporary file is removed after the image
    has been placed; when the canvas raises on the image, [draw_label]
    raises with the file still on disk. *)
Theorem temp_file_left_when_image_fails self x y d (st : State num) c img e :
  surface st = Some c ->
  (3 <= length (section_widths self))%nat ->
  qr_make env (qr_value d) = Ok img ->
  (forall op, canvas_fault env op = if is_image op then Some e else None) ->
  exists st',
    draw_label env self x y d st = (st', Raise e) /\
    files st' !! temp_qr_file d = Some (PngFile img).
Proof.
  intros Hc Hw Hqr Hf.
  destruct (section_widths self) as [|w0 [|w1 [|w2 ws]]] eqn:Hws;
    cbn [length] in Hw; try lia.
  destruct (draw_label_image_fault env self x y d st c w0 w1 w2 img e)
    as (st' & Hrun & Hfiles); rewrite ?Hws; auto.
  exists st'. split; [exact Hrun|].
  rewrite Hfiles. apply lookup_insert_eq.
Qed.

End TempFile.

Lemma temp_file_left_when_image_fails_example :
  exists st',
    draw_label Example.faulty_env Example.generator
      (label_x default_config 0) (label_y default_config 0)
      Example.label1 Example.drawing
      = (st', Raise Example.image_error) /\
    files st' !! "temp_qr_A12_B3.png"
      = Some (PngFile (QRImage "STOWAGE-A12-B3")).
Proof.
  apply (temp_file_left_when_image_fails Example.faulty_env Example.generator
           _ _ Example.label1 Example.drawing Example.blank_canvas).
  - reflexivity.
  - cbn. lia.
  - reflexivity.
  - reflexivity.
Defined.

(** The same in a whole run: [generate_labels] raises at the first label,
    no document is written, and the temporary file of that label is left
    among the files. *)
Lemma example_run_leaves_temp_file :
  exists st',
    generate_labels Example.faulty_env Example.generator "locations.csv"
      "labels.pdf" Example.start = (st', Raise Example.image_error) /\
    files st' !! "temp_qr_A12_B3.png"
      = Some (PngFile (QRImage "STOWAGE-A12-B3")) /\
    files st' !! "labels.pdf" = None /\
    files Example.start !! "temp_qr_A12_B3.png" = None.
Proof. eexists. split; [vm_compute; reflexivity|]. repeat split. Qed.

(** ** Section widths *)

Section Widths.
Context {num : Type} `{PyNum num}.

Lemma mapM_result_ok {A B : Type} (f : A -> result B) (g : A -> B) l :
  (forall x, f x = Ok (g x)) -> mapM f l = Ok (g <$> l).
Proof.
  intros Hf. induction l as [|x l IH]; [reflexivity|].
  cbn [mapM fmap list_fmap]. rewrite Hf. cbn [mbind result_bind].
  rewrite IH. reflexivity.
Qed.

Lemma mapM_result_raise {A B : Type} (f : A -> result B) e x l :
  f x = Raise e -> mapM f (x :: l) = Raise e.
Proof. intros Hf. cbn [mapM]. rewrite Hf. reflexivity. Qed.

Lemma init_nonzero (cfg : Config num) :
  is_zero (py_sum (section_ratios cfg)) = false ->
  __init__ cfg =
  Ok {| config := cfg;
        section_widths :=
          (fun ratio =>
             (ratio / py_sum (section_ratios cfg) * label_width cfg)%num)
            <$> section_ratios cfg |}.
Proof.
  intros Hz. unfold __init__.
  rewrite (mapM_result_ok _
             (fun ratio =>
                (ratio / py_sum (section_ratios cfg) * label_width cfg)%num)).
  - reflexivity.
  - intros ratio. unfold py_truediv. rewrite Hz. reflexivity.
Qed.

Lemma mapM_result_length {A B : Type} (f : A -> result B) l : forall k,
  mapM f l = Ok k -> length k = length l.
Proof.
  induction l as [|x l IH]; intros k; cbn [mapM].
  - intros [= <-]. reflexivity.
  - destruct (f x) as [y|e]; [|discriminate]. cbn [mbind result_bind].
    destruct (mapM f l) as [k'|e]; [|discriminate].
    intros [= <-]. cbn [length]. now rewrite (IH k').
Qed.

Lemma init_length (cfg : Config num) g :
  __init__ cfg = Ok g ->
  length (section_widths g) = length (section_ratios cfg).
Proof.
  unfold __init__.
  destruct (mapM _ (section_ratios cfg)) as [widths|e] eqn:Hw; [|discriminate].
  intros [= <-]. cbn [section_widths]. exact (mapM_result_length _ _ _ Hw).
Qed.

End Widths.

Section ExactSums.
Local Open Scope Q_scope.

Lemma fold_Qplus_shift (l : list Q) (a : Q) :
  fold_left Qplus l a == a + fold_left Qplus l 0.
Proof.
  revert a. induction l as [|x l IH]; intros a; cbn [fold_left].
  - ring.
  - rewrite (IH (a + x)), (IH (0 + x)). ring.
Qed.

Lemma fold_Qplus_scaled (l : list Q) (t w a : Q) :
  ~ t == 0 ->
  fold_left Qplus ((fun r => r / t * w) <$> l) a
  == a + fold_left Qplus l 0 / t * w.
Proof.
  intros Ht. revert a.
  induction l as [|x l IH]; intros a; cbn [fold_left fmap list_fmap].
  - field. exact Ht.
  - rewrite IH, (fold_Qplus_shift l (0 + x)). field. exact Ht.
Qed.

End ExactSums.

(** The widths of the default label, in binary64: the three add up to the
    width of the label, 189 points, with no rounding. *)
Lemma section_widths_default :
  __init__ (@default_config float _) = Ok Example.generator /\
  py_sum (section_widths Example.generator) = label_width default_config.
Proof. split; reflexivity. Qed.

(** In exact arithmetic the widths of any three ratios with a sum that is
    not zero add up to the width of the label. *)
Lemma section_widths_exact (cfg : Config Q) (r1 r2 r3 : Q) :
  section_ratios cfg = [r1; r2; r3] ->
  ~ (r1 + r2 + r3 == 0)%Q ->
  exists g w1 w2 w3,
    __init__ cfg = Ok g /\ config g = cfg /\
    section_widths g = [w1; w2; w3] /\
    (w1 == label_width cfg * r1 / (r1 + r2 + r3))%Q /\
    (w2 == label_width cfg * r2 / (r1 + r2 + r3))%Q /\
    (w3 == label_width cfg * r3 / (r1 + r2 + r3))%Q /\
    (w1 + w2 + w3 == label_width cfg)%Q /\
    (py_sum (section_widths g) == label_width cfg)%Q.
Proof.
  intros Hr Hsum. unfold __init__. rewrite Hr.
  assert (is_zero (py_sum [r1; r2; r3]) = false) as Hz.
  { cbn. apply not_true_is_false. intros Hz. apply Qeq_bool_iff in Hz.
    apply Hsum. rewrite <- Hz. ring. }
  assert (~ (0 + r1 + r2 + r3 == 0)%Q) as Hsum'.
  { intros Hz'. apply Hsum. rewrite <- Hz'. ring. }
  cbn [mapM]. unfold py_truediv. rewrite Hz. cbn [mbind result_bind mret result_ret].
  eexists _, _, _, _. split; [reflexivity|]. split; [reflexivity|].
  split; [reflexivity|].
  unfold py_sum.
  cbn [section_widths fold_left nadd ndiv nmul of_int exact_num].
  change (inject_Z 0) with 0%Q.
  split; [|split; [|split; [|split]]]; field; assumption.
Qed.

Lemma forallb_triples (f : Z -> Z -> Z -> bool) (l : list Z) :
  forallb (fun a => forallb (fun b => forallb (fun c => f a b c) l) l) l = true ->
  forall a b c, a ∈ l -> b ∈ l -> c ∈ l -> f a b c = true.
Proof.
  intros Hall a b c Ha Hb Hc. apply list_elem_of_In in Ha, Hb, Hc.
  rewrite forallb_forall in Hall. specialize (Hall a Ha).
  rewrite forallb_forall in Hall. specialize (Hall b Hb).
  rewrite forallb_forall in Hall. exact (Hall c Hc).
Qed.

(** The sums of the widths of the small whole-number ratios, in binary64,
    each computed. *)
Lemma small_ratios_checked :
  forallb (fun a =>
    forallb (fun b =>
      forallb (fun c => widths_within 0x1p-45 (whole_ratios a b c))
        small_ratios)
      small_ratios)
    small_ratios = true.
Proof. vm_compute. reflexivity. Qed.

Lemma small_ratios_sum (a b c : Z) :
  1 <= a <= 20 -> 1 <= b <= 20 -> 1 <= c <= 20 ->
  widths_within 0x1p-45 (whole_ratios a b c) = true.
Proof.
  intros Ha Hb Hc.
  apply (forallb_triples
           (fun a b c => widths_within 0x1p-45 (whole_ratios a b c))
           small_ratios small_ratios_checked);
    unfold small_ratios; apply elem_of_seqZ; lia.
Qed.




(** * More of the program *)

(** ** The constructor *)

Section Constructor.
Context {num : Type} `{PyNum num}.

(** X1. [__init__] raises [ZeroDivisionError] when the ratios are not empty
    and their sum is zero, and at no other time: with a sum that is not
    zero it keeps the configuration and gives each ratio its width
    [ratio / total * label_width], in order; with no ratio at all it
    returns with no width. *)
Theorem init_outcome (cfg : Config num) :
  let total_ratio := py_sum (section_ratios cfg) in
  (is_zero total_ratio = false ->
   __init__ cfg =
   Ok {| config := cfg;
         section_widths :=
           (fun ratio => (ratio / total_ratio * label_width cfg)%num)
             <$> section_ratios cfg |}) /\
  (section_ratios cfg = [] ->
   __init__ cfg = Ok {| config := cfg; section_widths := [] |}) /\
  (section_ratios cfg <> [] -> is_zero total_ratio = true ->
   __init__ cfg = Raise ZeroDivisionError).
Proof.
  intros total_ratio. split; [|split].
  - apply init_nonzero.
  - unfold __init__. intros ->. reflexivity.
  - unfold __init__. fold total_ratio. intros Hne Hz.
    destruct (section_ratios cfg) as [|ratio l]; [congruence|].
    rewrite (mapM_result_raise _ ZeroDivisionError); [reflexivity|].
    unfold py_truediv. rewrite Hz. reflexivity.
Qed.

End Constructor.

Lemma init_outcome_example :
  __init__ (@default_config float _) = Ok Example.generator /\
  __init__ (update_ratios (@default_config float _) [])
    = Ok {| config := update_ratios default_config [];
            section_widths := [] |} /\
  __init__ (update_ratios (@default_config float _) [1; -1]%float)
    = Raise ZeroDivisionError.
Proof.
  split; [|split].
  - exact (proj1 (init_outcome (@default_config float _)) eq_refl).
  - exact (proj1 (proj2 (init_outcome
                           (update_ratios (@default_config float _) [])))
             eq_refl).
  - refine (proj2 (proj2 (init_outcome
                            (update_ratios (@default_config float _)
                               [1; -1]%float))) _ eq_refl).
    discriminate.
Defined.

(** ** Section widths in exact arithmetic *)

Section ExactWidths.
Local Open Scope Q_scope.

(** X2. With exact numbers ([fractions.Fraction]) and ratios whose sum is
    not zero, how many they are, [__init__] returns and the section widths
    add up to the width of the label. *)
Theorem section_widths_sum_exact (cfg : Config Q) :
  ~ py_sum (section_ratios cfg) == 0 ->
  exists g,
    __init__ cfg = Ok g /\ config g = cfg /\
    length (section_widths g) = length (section_ratios cfg) /\
    py_sum (section_widths g) == label_width cfg.
Proof.
  intros Hsum.
  assert (is_zero (py_sum (section_ratios cfg)) = false) as Hz.
  { apply not_true_is_false. intros Hz. apply Hsum.
    apply Qeq_bool_iff. exact Hz. }
  eexists. split; [exact (init_nonzero cfg Hz)|].
  split; [reflexivity|]. cbn [section_widths].
  split; [apply length_fmap|].
  unfold py_sum at 1. cbn [nadd ndiv nmul of_int exact_num].
  rewrite fold_Qplus_scaled by exact Hsum.
  change (fold_left Qplus (section_ratios cfg) 0)
    with (py_sum (section_ratios cfg)).
  change (inject_Z 0) with 0. field. exact Hsum.
Qed.

End ExactWidths.

Lemma section_widths_sum_exact_example :
  exists g,
    __init__ (@default_config Q _) = Ok g /\ config g = default_config /\
    length (section_widths g) = 3%nat /\
    (py_sum (section_widths g) == label_width (@default_config Q _))%Q.
Proof.
  apply (section_widths_sum_exact (@default_config Q _)). discriminate.
Defined.

(** ** The colour of the middle section *)

Lemma color_dict_range (name : string) (c : Color) :
  color_dict !! name = Some c ->
  c ∈ [red; green; blue; yellow; orange; purple; pink; gray; lightgrey; white].
Proof.
  unfold color_dict. rewrite !lookup_insert_Some, lookup_empty.
  intros Hc. repeat destruct Hc as [[_ <-]|[_ Hc]]; try discriminate;
    set_solver.
Qed.

(** X3. Whatever the name, [get_background_color] gives one of the ten
    colours of the table, and never black, the colour the texts are drawn
    in. *)
Theorem background_never_black (color_name : string) :
  get_background_color color_name
    ∈ [red; green; blue; yellow; orange; purple; pink; gray; lightgrey; white]
  /\ get_background_color color_name <> black.
Proof.
  assert (get_background_color color_name
            ∈ [red; green; blue; yellow; orange; purple; pink; gray;
               lightgrey; white]) as Hin.
  { unfold get_background_color.
    destruct (color_dict !! Text.lower color_name) as [c|] eqn:Hc.
    - exact (color_dict_range _ _ Hc).
    - set_solver. }
  split; [exact Hin|]. intros Hb. rewrite Hb in Hin.
  rewrite !elem_of_cons, elem_of_nil in Hin. intuition discriminate.
Qed.

(** ** One label, call by call *)

Section LabelCalls.
Context {num : Type} `{PyNum num} (env : Env num).

Lemma foldl_record_op (l : list (Op num)) : forall c : Canvas num,
  cv_page (foldl record_op c l) = cv_page c /\
  cv_filename (foldl record_op c l) = cv_filename c /\
  cv_title (foldl record_op c l) = cv_title c /\
  cv_ops (foldl record_op c l) = cv_ops c ++ (pair (cv_page c) <$> l).
Proof.
  induction l as [|op l IH]; intros c; cbn [foldl fmap list_fmap].
  - rewrite app_nil_r. auto.
  - destruct (IH (record_op c op)) as (Hp & Hf & Ht & Ho).
    rewrite Hp, Hf, Ht, Ho. cbn [record_op cv_page cv_ops cv_filename cv_title].
    rewrite <- app_assoc. auto.
Qed.

Lemma state_ext (s : State num) f o c :
  files s = f -> stdout s = o -> surface s = c ->
  s = {| files := f; stdout := o; surface := c |}.
Proof. destruct s. cbn. now intros -> -> ->. Qed.

(** A call of [draw_label] that returns, in full: the state it ends in. *)
Lemma draw_label_ok_ops self x y d (st st' : State num) u c :
  surface st = Some c ->
  draw_label env self x y d st = (st', Ok u) ->
  exists w0 w1 w2 img,
    py_index (section_widths self) 0 = Ok w0 /\
    py_index (section_widths self) 1 = Ok w1 /\
    py_index (section_widths self) 2 = Ok w2 /\
    qr_make env (qr_value d) = Ok img /\
    st' = {| files := delete (temp_qr_file d) (files st);
             stdout := stdout st ++ [Line (qr_value d)];
             surface :=
               Some (foldl record_op c (label_ops self x y d w0 w1 w2 img)) |}.
Proof.
  intros Hc Hrun. unfold draw_label in Hrun.
  lift_inv Hrun w0 Hw0. lift_inv Hrun w1 Hw1.
  bind_inv Hrun u1 Hm. eapply draw_ok_inv in Hm; [|exact Hc].
  destruct Hm as [_ Hst]; subst.
  do 13 draw_inv Hrun.
  lift_inv Hrun w2 Hw2.
  do 2 draw_inv Hrun.
  bind_inv Hrun u2 Hprint. rewrite print_eq in Hprint.
  injection Hprint as <- _.
  lift_inv Hrun img Hqr.
  bind_inv Hrun u3 Hsave. unfold image_save in Hsave.
  injection Hsave as <- _.
  bind_inv Hrun u4 Himg. unfold drawImage in Himg.
  cbn [files set_files] in Himg. rewrite lookup_insert_eq in Himg.
  eapply draw_ok_inv in Himg; [|reflexivity].
  destruct Himg as [_ Hst]; subst.
  bind_inv Hrun present Hex. unfold path_exists in Hex.
  cbn [files set_files set_surface] in Hex.
  rewrite lookup_insert_eq, bool_decide_eq_true_2 in Hex by eauto.
  injection Hex as <- <-.
  unfold remove in Hrun. cbn [files set_files set_surface] in Hrun.
  rewrite lookup_insert_eq in Hrun. injection Hrun as <-.
  exists w0, w1, w2, img. do 4 (split; [assumption|]).
  apply state_ext; cbn [files stdout surface set_files set_surface].
  - apply delete_insert_eq.
  - reflexivity.
  - unfold label_ops, qr_side. cbn [foldl]. reflexivity.
Qed.

(** X4. A call of [draw_label] that returns has made seventeen drawing
    calls, those of [label_ops] in order and all on the page that was
    current, and nothing else on the canvas; the sixteenth draws the text
    of line 200, the three characters of [up_arrow]; the one image it has
    placed is the QR image of the row's code, as wide as it is high. *)
Theorem label_drawing_calls self x y d (st st' : State num) c :
  surface st = Some c ->
  draw_label env self x y d st = (st', Ok tt) ->
  exists c' w0 w1 w2 img,
    surface st' = Some c' /\
    py_index (section_widths self) 2 = Ok w2 /\
    qr_make env (qr_value d) = Ok img /\
    cv_ops c' =
      cv_ops c ++ (pair (cv_page c) <$> label_ops self x y d w0 w1 w2 img) /\
    length (cv_ops c') = (length (cv_ops c) + 17)%nat /\
    cv_page c' = cv_page c /\
    images c' = images c ++ [(img, qr_side self w2, qr_side self w2)].
Proof.
  intros Hc Hrun.
  destruct (draw_label_ok_ops _ _ _ _ _ _ _ _ Hc Hrun)
    as (w0 & w1 & w2 & img & _ & _ & Hw2 & Hqr & ->).
  destruct (foldl_record_op (label_ops self x y d w0 w1 w2 img) c)
    as (Hp & _ & _ & Ho).
  eexists _, w0, w1, w2, img. split; [reflexivity|].
  split; [exact Hw2|]. split; [exact Hqr|]. split; [exact Ho|].
  split; [rewrite Ho, length_app, length_fmap; reflexivity|].
  split; [exact Hp|].
  unfold images. rewrite Ho, omap_app. reflexivity.
Qed.

End LabelCalls.

Lemma label_drawing_calls_example :
  exists c' w0 w1 w2 img,
    length (cv_ops c') = 17%nat /\
    images c' = [(img, qr_side Example.generator w2,
                  qr_side Example.generator w2)] /\
    img = QRImage "STOWAGE-A12-B3" /\
    cv_ops c' =
      pair 0 <$> label_ops Example.generator (label_x default_config 0)
                   (label_y default_config 0) Example.label1 w0 w1 w2 img.
Proof.
  destruct (label_drawing_calls Example.env Example.generator
              (label_x default_config 0) (label_y default_config 0)
              Example.label1 Example.drawing
              (fst (draw_label Example.env Example.generator
                      (label_x default_config 0) (label_y default_config 0)
                      Example.label1 Example.drawing))
              Example.blank_canvas eq_refl)
    as (c' & w0 & w1 & w2 & img & _ & _ & Hqr & Ho & Hlen & _ & Himg).
  { vm_compute. reflexivity. }
  exists c', w0, w1, w2, img. split; [exact Hlen|]. split; [exact Himg|].
  split; [injection Hqr as <-; reflexivity | exact Ho].
Defined.

(** ** One label, when it fails, and its files *)

Section LabelFailures.
Context {num : Type} `{PyNum num} (env : Env num).

Ltac fwd_draw Hnf :=
  erewrite bind_ok by (apply draw_ok; [reflexivity | apply Hnf; reflexivity]).

(** The two left sections: what [draw_label] has done when it reaches the
    third width. *)
Lemma draw_label_two_sections self x y d (st : State num) c w0 w1 :
  surface st = Some c ->
  py_index (section_widths self) 0 = Ok w0 ->
  py_index (section_widths self) 1 = Ok w1 ->
  (forall op, is_image op = false -> canvas_fault env op = None) ->
  exists c1 (k : num -> M num unit),
    borders c1 = borders c ++ [Place (cv_page c) x y] /\
    texts c1 =
      texts c ++ ["AISLE"; aisle d; header_text (qr_value d); ambient d] /\
    draw_label env self x y d st =
    (lift (py_index (section_widths self) 2) ≫= k)
      {| files := files st; stdout := stdout st; surface := Some c1 |}.
Proof.
  intros Hc Hw0 Hw1 Hnf. unfold draw_label.
  rewrite Hw0. erewrite bind_ok by reflexivity.
  rewrite Hw1. erewrite bind_ok by reflexivity.
  erewrite bind_ok by (apply draw_ok; [exact Hc | apply Hnf; reflexivity]).
  do 13 fwd_draw Hnf.
  eexists _, _. split; [|split; [|f_equal; apply state_ext; reflexivity]].
  - rewrite !borders_record_op. cbn [border_of cv_page record_op].
    now rewrite !app_nil_r.
  - rewrite !texts_record_op. cbn [text_of cv_page record_op].
    rewrite !app_nil_r, <- !app_assoc. reflexivity.
Qed.

(** X5. With fewer than two section widths [draw_label] raises
    [IndexError] at once, in the state it was called in.  With exactly two
    it raises [IndexError] when it reaches the right section: the outline
    and the texts of the left and middle sections are on the canvas, nothing
    has been printed and no file has been written. *)
Theorem too_few_section_widths self x y d (st : State num) :
  ((length (section_widths self) < 2)%nat ->
   draw_label env self x y d st = (st, Raise IndexError)) /\
  (length (section_widths self) = 2%nat ->
   forall c,
     surface st = Some c ->
     (forall op, is_image op = false -> canvas_fault env op = None) ->
     exists c',
       draw_label env self x y d st =
       ({| files := files st; stdout := stdout st; surface := Some c' |},
        Raise IndexError) /\
       borders c' = borders c ++ [Place (cv_page c) x y] /\
       texts c' =
         texts c ++ ["AISLE"; aisle d; header_text (qr_value d); ambient d]).
Proof.
  split.
  - intros Hlen. unfold draw_label.
    destruct (section_widths self) as [|w0 [|w1 ws]]; cbn [length] in Hlen;
      [reflexivity | reflexivity | lia].
  - intros Hlen c Hc Hnf.
    destruct (section_widths self) as [|w0 [|w1 [|w2 ws]]] eqn:Hws;
      try discriminate.
    destruct (draw_label_two_sections self x y d st c w0 w1)
      as (c1 & k & Hb & Ht & Hrun); rewrite ?Hws; auto.
    exists c1. rewrite Hrun, Hws. auto.
Qed.

(** X6. When the QR encoder raises on the code of the row, [draw_label]
    raises the same error after it has drawn the outline and the texts,
    the three characters of line 200 last, and printed the code: no image
    file is written. *)
Theorem qr_encoder_failure self x y d (st : State num) c e :
  surface st = Some c ->
  (3 <= length (section_widths self))%nat ->
  (forall op, is_image op = false -> canvas_fault env op = None) ->
  qr_make env (qr_value d) = Raise e ->
  exists c',
    draw_label env self x y d st =
    ({| files := files st; stdout := stdout st ++ [Line (qr_value d)];
        surface := Some c' |}, Raise e) /\
    borders c' = borders c ++ [Place (cv_page c) x y] /\
    texts c' =
      texts c ++ ["AISLE"; aisle d; header_text (qr_value d); ambient d;
                  up_arrow].
Proof.
  intros Hc Hlen Hnf Hqr.
  destruct (section_widths self) as [|w0 [|w1 [|w2 ws]]] eqn:Hws;
    cbn [length] in Hlen; try lia.
  destruct (draw_label_two_sections self x y d st c w0 w1)
    as (c1 & k & Hb & Ht & Hrun); rewrite ?Hws; auto.
  clear Hrun. unfold draw_label. rewrite Hws.
  erewrite bind_ok by reflexivity. erewrite bind_ok by reflexivity.
  erewrite bind_ok by (apply draw_ok; [exact Hc | apply Hnf; reflexivity]).
  do 13 fwd_draw Hnf.
  erewrite bind_ok by reflexivity.
  do 2 fwd_draw Hnf.
  erewrite bind_ok by apply print_eq.
  unfold create_qr_code. rewrite Hqr.
  erewrite bind_raise by reflexivity.
  eexists. split; [f_equal; apply state_ext; reflexivity|]. split.
  - rewrite !borders_record_op. cbn [border_of cv_page record_op].
    now rewrite !app_nil_r.
  - rewrite !texts_record_op. cbn [text_of cv_page record_op].
    rewrite !app_nil_r, <- !app_assoc. reflexivity.
Qed.

(** X7. A call of [draw_label] that returns leaves no file under the
    temporary name, also when a file of that name was there before the
    call, and changes no other path. *)
Theorem temp_name_cleared self x y d (st st' : State num) c :
  surface st = Some c ->
  draw_label env self x y d st = (st', Ok tt) ->
  forall path,
    files st' !! path =
    if decide (path = temp_qr_file d) then None else files st !! path.
Proof.
  intros Hc Hrun path.
  destruct (draw_label_ok_inv env _ _ _ _ _ _ _ _ Hc Hrun)
    as (c' & img & _ & _ & _ & _ & _ & _ & Hfiles & _).
  rewrite Hfiles. destruct (decide (path = temp_qr_file d)) as [->|Hne].
  - apply lookup_delete_eq.
  - apply lookup_delete_ne. congruence.
Qed.

End LabelFailures.

Lemma too_few_section_widths_example :
  exists c',
    draw_label Example.env
      {| config := default_config; section_widths := [63; 126]%float |}
      (label_x default_config 0) (label_y default_config 0)
      Example.label1 Example.drawing =
    ({| files := ∅; stdout := []; surface := Some c' |}, Raise IndexError) /\
    borders c' =
      [Place 0 (label_x default_config 0) (label_y default_config 0)] /\
    texts c' = ["AISLE"; "A12"; "AMBIENT"; "B3"].
Proof.
  exact (proj2 (too_few_section_widths Example.env
                  {| config := default_config;
                     section_widths := [63; 126]%float |}
                  (label_x default_config 0) (label_y default_config 0)
                  Example.label1 Example.drawing)
           eq_refl Example.blank_canvas eq_refl (fun _ _ => eq_refl)).
Defined.

Lemma qr_encoder_failure_example :
  exists c',
    draw_label
      {| qr_make := fun _ => Raise (LibraryError "DataOverflowError");
         canvas_fault := fun _ => None |}
      Example.generator
      (label_x default_config 0) (label_y default_config 0)
      Example.label1 Example.drawing =
    ({| files := ∅; stdout := [] ++ [Line "STOWAGE-A12-B3"];
        surface := Some c' |},
     Raise (LibraryError "DataOverflowError")) /\
    borders c' =
      borders Example.blank_canvas
      ++ [Place 0 (label_x default_config 0) (label_y default_config 0)] /\
    texts c' =
      texts Example.blank_canvas
      ++ ["AISLE"; "A12"; header_text "STOWAGE-A12-B3"; "B3"; up_arrow].
Proof.
  apply (qr_encoder_failure
           {| qr_make := fun _ => Raise (LibraryError "DataOverflowError");
              canvas_fault := fun _ => None |}
           Example.generator _ _ Example.label1 Example.drawing
           Example.blank_canvas).
  - reflexivity.
  - cbn. lia.
  - reflexivity.
  - reflexivity.
Defined.

Lemma temp_name_cleared_example :
  let st := {| files := <["temp_qr_A12_B3.png" := CsvFile []]>
                        (<["notes.csv" := CsvFile []]> ∅);
               stdout := [];
               surface := Some Example.blank_canvas |} in
  let st' := fst (draw_label Example.env Example.generator
                    (label_x default_config 0) (label_y default_config 0)
                    Example.label1 st) in
  files st !! "temp_qr_A12_B3.png" = Some (CsvFile []) /\
  files st' !! "temp_qr_A12_B3.png" = None /\
  files st' !! "notes.csv" = Some (CsvFile []).
Proof.
  intros st st'.
  assert (draw_label Example.env Example.generator
            (label_x default_config 0) (label_y default_config 0)
            Example.label1 st = (st', Ok tt)) as Hrun
    by (vm_compute; reflexivity).
  pose proof (temp_name_cleared Example.env Example.generator _ _
                Example.label1 st st' Example.blank_canvas eq_refl Hrun)
    as Hfiles.
  split; [reflexivity|]. split.
  - exact (Hfiles "temp_qr_A12_B3.png").
  - exact (Hfiles "notes.csv").
Defined.

(** ** The rows of a run *)

Section Rows.
Context {num : Type} `{PyNum num} (env : Env num).

Lemma row_get_field (row : Row) key v :
  row_get row key = Ok v -> row !! key = Some v /\ row_field row key = v.
Proof.
  unfold row_get, row_field. destruct (row !! key); [|discriminate].
  intros [= ->]. split; reflexivity.
Qed.

(** A turn of the loop that returns, with what it adds for the row. *)
Lemma place_label_ok_full self idx row (st st' : State num) u c :
  surface st = Some c ->
  place_label env self idx row st = (st', Ok u) ->
  complete_row row /\
  exists c',
    surface st' = Some c' /\
    texts c' = texts c ++ row_texts row /\
    fills c' = fills c ++ row_fills row /\
    files st' = delete (temp_qr_file (row_data row)) (files st) /\
    stdout st' = stdout st ++ [Line (row_field row "qr_value")].
Proof.
  intros Hc Hrun. unfold place_label in Hrun.
  lift_inv Hrun cell Hcell. destruct cell as [[pos row_num] col_num].
  bind_inv Hrun u0 Hm. rename st0 into st1.
  assert (exists c0, surface st1 = Some c0 /\ texts c0 = texts c /\
            fills c0 = fills c /\ files st1 = files st /\
            stdout st1 = stdout st) as (c0 & Hc0 & Ht & Hf & Hfs & Hout).
  { destruct ((pos =? 0) && (0 <? idx)).
    - rewrite (showPage_eq st c Hc) in Hm. injection Hm as <- _.
      eexists. split; [reflexivity|]. repeat split.
    - injection Hm as <- _. exists c. repeat split. exact Hc. }
  lift_inv Hrun a Ha. lift_inv Hrun b Hb. lift_inv Hrun col Hcol.
  lift_inv Hrun q Hq.
  apply row_get_field in Ha as [Ha Ha'], Hb as [Hb Hb'],
    Hcol as [Hcol Hcol'], Hq as [Hq Hq'].
  split.
  { unfold complete_row. rewrite Ha, Hb, Hcol, Hq. eauto. }
  destruct (draw_label_ok_inv env _ _ _ _ _ _ _ _ Hc0 Hrun)
    as (c' & img & _ & Hc' & _ & _ & _ & _ & Hfiles & Hstdout & Htexts & Hfills).
  cbn [aisle ambient bg_color qr_value] in Hstdout, Htexts, Hfills.
  exists c'. split; [exact Hc'|].
  unfold row_texts, row_fills, row_data.
  rewrite Ha', Hb', Hcol', Hq', Htexts, Hfills, Hfiles, Hstdout, Ht, Hf,
    Hfs, Hout.
  repeat split.
Qed.

Lemma for_rows_ok_full self df : forall idx (st st' : State num) u c,
  surface st = Some c ->
  for_rows (place_label env self) idx df st = (st', Ok u) ->
  Forall complete_row df /\
  exists c',
    surface st' = Some c' /\
    texts c' = texts c ++ (df ≫= row_texts) /\
    fills c' = fills c ++ (df ≫= row_fills) /\
    files st' = without_temp_files (files st) df /\
    stdout st' =
      stdout st ++ ((fun row => Line (row_field row "qr_value")) <$> df).
Proof.
  induction df as [|row df IH]; intros idx st st' u c Hc Hrun.
  - injection Hrun as <- _. split; [constructor|]. exists c.
    cbn. rewrite !app_nil_r. auto.
  - cbn [for_rows] in Hrun. bind_inv Hrun u0 Hm.
    destruct (place_label_ok_full _ _ _ _ _ _ _ Hc Hm)
      as (Hrow & c1 & Hc1 & Ht & Hf & Hfs & Hout).
    destruct (IH _ _ _ _ _ Hc1 Hrun)
      as (Hrows & c' & Hc' & Ht' & Hf' & Hfs' & Hout').
    split; [constructor; assumption|].
    exists c'. split; [exact Hc'|].
    rewrite Ht', Hf', Hfs', Hout', Ht, Hf, Hfs, Hout.
    cbn [mbind list_bind fmap list_fmap without_temp_files foldl].
    rewrite <- !app_assoc. repeat split.
Qed.

(** What a turn of the loop that returns has needed: a code the encoder
    accepts and the third section width. *)
Lemma place_label_ok_needs self idx row (st st' : State num) u c :
  surface st = Some c ->
  place_label env self idx row st = (st', Ok u) ->
  (exists img, qr_make env (row_field row "qr_value") = Ok img) /\
  (3 <= length (section_widths self))%nat.
Proof.
  intros Hc Hrun. unfold place_label in Hrun.
  lift_inv Hrun cell Hcell. destruct cell as [[pos row_num] col_num].
  bind_inv Hrun u0 Hm. rename st0 into st1.
  assert (exists c0, surface st1 = Some c0) as (c0 & Hc0).
  { destruct ((pos =? 0) && (0 <? idx)).
    - rewrite (showPage_eq st c Hc) in Hm. injection Hm as <- _.
      eexists. reflexivity.
    - injection Hm as <- _. exists c. exact Hc. }
  lift_inv Hrun a Ha. lift_inv Hrun b Hb. lift_inv Hrun col Hcol.
  lift_inv Hrun q Hq.
  apply row_get_field in Hq as [_ Hq'].
  destruct (draw_label_ok_ops env _ _ _ _ _ _ _ _ Hc0 Hrun)
    as (w0 & w1 & w2 & img & _ & _ & Hw2 & Hqr & _).
  cbn [qr_value] in Hqr. rewrite Hq'. split; [eauto|].
  unfold py_index in Hw2.
  destruct (section_widths self !! 2%nat) eqn:Hl; [|discriminate].
  apply lookup_lt_Some in Hl. lia.
Qed.

Lemma for_rows_ok_needs self df : forall idx (st st' : State num) u c,
  surface st = Some c ->
  for_rows (place_label env self) idx df st = (st', Ok u) ->
  Forall (fun row =>
            exists img, qr_make env (row_field row "qr_value") = Ok img) df /\
  (df <> [] -> (3 <= length (section_widths self))%nat).
Proof.
  induction df as [|row df IH]; intros idx st st' u c Hc Hrun.
  - split; [constructor|congruence].
  - cbn [for_rows] in Hrun. bind_inv Hrun u0 Hm.
    destruct (place_label_ok_needs _ _ _ _ _ _ _ Hc Hm) as (Hqr & Hw).
    destruct (place_label_ok_full _ _ _ _ _ _ _ Hc Hm)
      as (_ & c1 & Hc1 & _).
    destruct (IH _ _ _ _ _ Hc1 Hrun) as (Hrows & _).
    split; [constructor; assumption|]. intros _. exact Hw.
Qed.

Lemma generate_labels_ok_needs self data_file output_pdf (st st' : State num) u :
  generate_labels env self data_file output_pdf st = (st', Ok u) ->
  exists df,
    read_data data_file st = (st, Ok df) /\
    Forall (fun row =>
              exists img, qr_make env (row_field row "qr_value") = Ok img) df /\
    (df <> [] -> (3 <= length (section_widths self))%nat).
Proof.
  intros Hrun. unfold generate_labels in Hrun.
  bind_inv Hrun df Hm.
  pose proof (read_data_state _ _ _ _ Hm) as ->.
  bind_inv Hrun u1 Hnew. injection Hnew as <- _.
  bind_inv Hrun u2 Htitle. injection Htitle as <- _.
  bind_inv Hrun u3 Hloop.
  eapply for_rows_ok_needs in Hloop; [|reflexivity].
  exists df. split; [exact Hm|]. exact Hloop.
Qed.

(** A run of [generate_labels] that returns, with what the rows add. *)
Lemma generate_labels_ok_full self data_file output_pdf (st st' : State num) u :
  generate_labels env self data_file output_pdf st = (st', Ok u) ->
  exists df doc pages,
    read_data data_file st = (st, Ok df) /\
    Forall complete_row df /\
    cv_filename doc = output_pdf /\
    texts doc = df ≫= row_texts /\
    fills doc = df ≫= row_fills /\
    page_count (Z.of_nat (length df)) (labels_per_page (config self))
      = Ok pages /\
    files st' =
      <[output_pdf := PdfFile doc]> (without_temp_files (files st) df) /\
    stdout st' =
      stdout st ++ ((fun row => Line (row_field row "qr_value")) <$> df)
      ++ [Summary output_pdf (Z.of_nat (length df)) pages].
Proof.
  intros Hrun. unfold generate_labels in Hrun.
  bind_inv Hrun df Hm.
  pose proof (read_data_state _ _ _ _ Hm) as ->.
  bind_inv Hrun u1 Hnew. injection Hnew as <- _.
  bind_inv Hrun u2 Htitle. injection Htitle as <- _.
  bind_inv Hrun u3 Hloop.
  pose proof Hloop as Hloop'.
  eapply for_rows_ok_inv in Hloop'; [|reflexivity].
  destruct Hloop' as (doc' & Hdoc' & Hfn & _).
  eapply for_rows_ok_full in Hloop; [|reflexivity].
  destruct Hloop as (Hrows & doc & Hdoc & Ht & Hf & Hfs & Hout).
  assert (doc' = doc) as -> by congruence.
  cbn [cv_filename] in Hfn.
  bind_inv Hrun u4 Hsave. unfold save, with_canvas in Hsave.
  rewrite Hdoc in Hsave. injection Hsave as <- _.
  lift_inv Hrun pages Hpages. rewrite print_eq in Hrun.
  injection Hrun as <-.
  exists df, doc, pages. cbn [files stdout set_files].
  rewrite Hfn, Hfs, Hout, Ht, Hf, <- app_assoc. repeat split; assumption.
Qed.

End Rows.

(** ** Whole runs *)

Section Runs.
Context {num : Type} `{PyNum num} (env : Env num).

Lemma lookup_without_temp_files (df : DataFrame) :
  forall (fs : gmap string (File num)) path,
    without_temp_files fs df !! path =
    if decide (path ∈ (fun row => temp_qr_file (row_data row)) <$> df)
    then None else fs !! path.
Proof.
  induction df as [|row df IH]; intros fs path;
    cbn [without_temp_files foldl fmap list_fmap].
  - destruct (decide (path ∈ [])) as [Hin|_]; [|reflexivity].
    now apply elem_of_nil in Hin.
  - fold (without_temp_files (delete (temp_qr_file (row_data row)) fs) df).
    rewrite IH.
    destruct (decide (path ∈ (fun r => temp_qr_file (row_data r)) <$> df))
      as [Hin|Hnin].
    + rewrite decide_True by (right; exact Hin). reflexivity.
    + destruct (decide (path = temp_qr_file (row_data row))) as [->|Hne].
      * rewrite decide_True by left. apply lookup_delete_eq.
      * rewrite decide_False.
        -- apply lookup_delete_ne. congruence.
        -- intros Hin. apply elem_of_cons in Hin as [?|?]; contradiction.
Qed.

(** X8. A run of [generate_labels] that returns has printed the code of
    every row, one line a row in the order of the table, and then the
    closing message, and nothing else. *)
Theorem run_output self data_file output_pdf (st st' : State num) :
  generate_labels env self data_file output_pdf st = (st', Ok tt) ->
  exists df pages,
    read_data data_file st = (st, Ok df) /\
    page_count (Z.of_nat (length df)) (labels_per_page (config self))
      = Ok pages /\
    stdout st' =
      stdout st ++ ((fun row => Line (row_field row "qr_value")) <$> df)
      ++ [Summary output_pdf (Z.of_nat (length df)) pages].
Proof.
  intros Hrun.
  destruct (generate_labels_ok_full env _ _ _ _ _ _ Hrun)
    as (df & doc & pages & Hread & _ & _ & _ & _ & Hpages & _ & Hout).
  exists df, pages. repeat split; assumption.
Qed.

(** X9. The document of a run that returns is saved under the name asked
    for, is titled Generated Labels, and shows for every row of the table,
    in order: AISLE, the aisle, the zone header of the code, the ambient
    text and the text of line 200, which is the three characters of
    [up_arrow] and no arrow; its fill colours are, row by row, the colour
    of the row and then black. *)
Theorem document_content self data_file output_pdf (st st' : State num) :
  generate_labels env self data_file output_pdf st = (st', Ok tt) ->
  exists df doc,
    read_data data_file st = (st, Ok df) /\
    files st' !! output_pdf = Some (PdfFile doc) /\
    cv_filename doc = output_pdf /\
    cv_title doc = "Generated Labels" /\
    texts doc = df ≫= row_texts /\
    fills doc = df ≫= row_fills.
Proof.
  intros Hrun.
  destruct (generate_labels_ok_full env _ _ _ _ _ _ Hrun)
    as (df & doc & pages & Hread & _ & Hfn & Ht & Hf & _ & Hfiles & _).
  destruct (generate_labels_ok_inv env _ _ _ _ _ _ Hrun)
    as (df' & doc' & _ & _ & Hfile' & _ & Htitle & _).
  rewrite Hfiles, lookup_insert_eq in Hfile'. injection Hfile' as <-.
  exists df, doc. split; [exact Hread|].
  split; [rewrite Hfiles; apply lookup_insert_eq|]. auto.
Qed.

(** X10. After a run that returns, the path asked for holds the document,
    the temporary names of the rows hold no file, whatever they held
    before, and every other path holds what it held. *)
Theorem run_files self data_file output_pdf (st st' : State num) :
  generate_labels env self data_file output_pdf st = (st', Ok tt) ->
  exists df doc,
    read_data data_file st = (st, Ok df) /\
    forall path,
      files st' !! path =
      if decide (path = output_pdf) then Some (PdfFile doc)
      else if decide (path ∈ (fun row => temp_qr_file (row_data row)) <$> df)
           then None
           else files st !! path.
Proof.
  intros Hrun.
  destruct (generate_labels_ok_full env _ _ _ _ _ _ Hrun)
    as (df & doc & pages & Hread & _ & _ & _ & _ & _ & Hfiles & _).
  exists df, doc. split; [exact Hread|]. intros path. rewrite Hfiles.
  destruct (decide (path = output_pdf)) as [->|Hne].
  - apply lookup_insert_eq.
  - rewrite lookup_insert_ne by congruence.
    apply lookup_without_temp_files.
Qed.

(** X11. A run of [generate_labels] returns only if the path of the
    table ends in [.csv], [.xlsx] or [.xls] and the table could be read,
    the grid is not empty, every row has the four columns aisle, ambient,
    color and qr_value, the QR encoder has accepted the code of every row
    and, unless the table is empty, there are three section widths or
    more. *)
Theorem run_returns_only_if self data_file output_pdf (st st' : State num) :
  generate_labels env self data_file output_pdf st = (st', Ok tt) ->
  exists df,
    read_data data_file st = (st, Ok df) /\
    (Text.Suffix ".csv" data_file \/ Text.Suffix ".xlsx" data_file \/
     Text.Suffix ".xls" data_file) /\
    labels_per_page (config self) <> 0 /\
    Forall complete_row df /\
    Forall (fun row =>
              exists img, qr_make env (row_field row "qr_value") = Ok img) df /\
    (df <> [] -> (3 <= length (section_widths self))%nat).
Proof.
  intros Hrun.
  destruct (generate_labels_ok_full env _ _ _ _ _ _ Hrun)
    as (df & doc & pages & Hread & Hrows & _ & _ & _ & Hpages & _).
  destruct (generate_labels_ok_needs env _ _ _ _ _ _ Hrun)
    as (df' & Hread' & Hcodes & Hwidths).
  assert (df' = df) as -> by congruence.
  exists df. split; [exact Hread|].
  split; [exact (read_data_ok_suffix _ _ _ _ Hread)|].
  split.
  { intros Hz. rewrite Hz in Hpages. discriminate. }
  split; [exact Hrows|]. split; assumption.
Qed.

End Runs.

Lemma run_output_example :
  stdout Example.finish =
  [Line "STOWAGE-A12-B3"; Line "CHILLER-C5-D1"; Summary "labels.pdf" 2 1].
Proof.
  destruct (run_output Example.env Example.generator "locations.csv"
              "labels.pdf" Example.start Example.finish example_run)
    as (df & pages & Hread & Hpages & Hout).
  rewrite example_read in Hread. injection Hread as <-.
  injection Hpages as <-. rewrite Hout. reflexivity.
Defined.

Lemma document_content_example :
  exists doc,
    files Example.finish !! "labels.pdf" = Some (PdfFile doc) /\
    cv_title doc = "Generated Labels" /\
    texts doc = ["AISLE"; "A12"; "AMBIENT"; "B3"; up_arrow;
                 "AISLE"; "C5"; "CHILLED"; "D1"; up_arrow] /\
    fills doc = [blue; black; red; black].
Proof.
  destruct (document_content Example.env Example.generator "locations.csv"
              "labels.pdf" Example.start Example.finish example_run)
    as (df & doc & Hread & Hfile & _ & Htitle & Ht & Hf).
  rewrite example_read in Hread. injection Hread as <-.
  exists doc. split; [exact Hfile|]. split; [exact Htitle|].
  split; [exact Ht | exact Hf].
Defined.

Lemma run_files_example :
  files Example.finish !! "temp_qr_A12_B3.png" = None /\
  files Example.finish !! "other.xlsx"
    = Some (ExcelFile [Example.row2; Example.row1]).
Proof.
  destruct (run_files Example.env Example.generator "locations.csv"
              "labels.pdf" Example.start Example.finish example_run)
    as (df & doc & Hread & Hfiles).
  rewrite example_read in Hread. injection Hread as <-.
  split.
  - rewrite (Hfiles "temp_qr_A12_B3.png"). reflexivity.
  - rewrite (Hfiles "other.xlsx"). reflexivity.
Defined.

Lemma example_reliable : reliable Example.env.
Proof. split; [intros data; eexists|intros op]; reflexivity. Qed.

Lemma run_returns_only_if_example :
  exists df,
    read_data "locations.csv" Example.start = (Example.start, Ok df) /\
    (Text.Suffix ".csv" "locations.csv" \/
     Text.Suffix ".xlsx" "locations.csv" \/
     Text.Suffix ".xls" "locations.csv") /\
    labels_per_page (config Example.generator) <> 0 /\
    Forall complete_row df /\
    Forall (fun row =>
              exists img,
                qr_make Example.env (row_field row "qr_value") = Ok img) df /\
    (df <> [] -> (3 <= length (section_widths Example.generator))%nat).
Proof.
  exact (run_returns_only_if Example.env Example.generator "locations.csv"
           "labels.pdf" Example.start Example.finish example_run).
Defined.

(** ** Runs that raise *)

Section RaisingRuns.
Context {num : Type} `{PyNum num} (env : Env num).

Lemma for_rows_app (body : Z -> Row -> M num unit) (l1 l2 : DataFrame) :
  forall idx (st : State num),
    for_rows body idx (l1 ++ l2) st =
    match for_rows body idx l1 st with
    | (st1, Ok _) => for_rows body (idx + Z.of_nat (length l1)) l2 st1
    | (st1, Raise e) => (st1, Raise e)
    end.
Proof.
  induction l1 as [|row l1 IH]; intros idx st.
  - cbn [app for_rows length]. unfold mret, M_mret, M_ret.
    now rewrite Z.add_0_r.
  - cbn [app for_rows length]. unfold mbind, M_mbind, M_bind.
    destruct (body idx row st) as [st1 [[]|e]]; [|reflexivity].
    change (for_rows body (idx + 1) (l1 ++ l2) st1 =
            match for_rows body (idx + 1) l1 st1 with
            | (st2, Ok _) =>
                for_rows body (idx + Z.of_nat (S (length l1))) l2 st2
            | (st2, Raise e) => (st2, Raise e)
            end).
    rewrite IH. replace (idx + 1 + Z.of_nat (length l1))
      with (idx + Z.of_nat (S (length l1))) by lia.
    reflexivity.
Qed.

(** The turn of the loop on a row without one of the four columns. *)
Lemma place_label_missing self idx row (st : State num) c key :
  surface st = Some c ->
  labels_per_page (config self) <> 0 ->
  first_missing row = Some key ->
  exists st',
    place_label env self idx row st = (st', Raise (KeyError key)) /\
    files st' = files st /\ stdout st' = stdout st.
Proof.
  intros Hc Hlpp Hkey. unfold place_label.
  rewrite (grid_cell_ok _ idx Hlpp). erewrite bind_ok by reflexivity.
  set (pos := idx mod labels_per_page (config self)).
  assert (exists st1,
            (if (pos =? 0) && (0 <? idx) then showPage else mret tt) st
              = (st1, Ok tt) /\ files st1 = files st /\
            stdout st1 = stdout st) as (st1 & Hturn & Hfs & Hout).
  { destruct ((pos =? 0) && (0 <? idx)).
    - rewrite (showPage_eq st c Hc). eexists. repeat split.
    - exists st. repeat split. }
  erewrite bind_ok by exact Hturn.
  exists st1. split; [|split; assumption].
  unfold first_missing in Hkey. unfold row_get.
  destruct (row !! "aisle") as [a|];
    [|injection Hkey as <-; reflexivity].
  erewrite bind_ok by reflexivity.
  destruct (row !! "ambient") as [b|];
    [|injection Hkey as <-; reflexivity].
  erewrite bind_ok by reflexivity.
  destruct (row !! "color") as [col|];
    [|injection Hkey as <-; reflexivity].
  erewrite bind_ok by reflexivity.
  destruct (row !! "qr_value") as [q|];
    [discriminate | injection Hkey as <-; reflexivity].
Qed.

(** X12. When a row of the table lacks one of the four columns, with
    libraries that do not fail, [generate_labels] raises [KeyError] for the
    first column the row lacks, after the labels of the rows before it have
    been drawn: the codes of those rows have been printed, their temporary
    files are gone, and neither the document nor the closing message has
    been written. *)
Theorem missing_column self data_file output_pdf (st : State num)
    before row after key :
  reliable env ->
  (3 <= length (section_widths self))%nat ->
  labels_per_page (config self) <> 0 ->
  read_data data_file st = (st, Ok (before ++ row :: after)) ->
  Forall complete_row before ->
  first_missing row = Some key ->
  exists st',
    generate_labels env self data_file output_pdf st
      = (st', Raise (KeyError key)) /\
    files st' = without_temp_files (files st) before /\
    stdout st' =
      stdout st ++ ((fun r => Line (row_field r "qr_value")) <$> before).
Proof.
  intros Hrel Hw Hlpp Hread Hrows Hkey. unfold generate_labels.
  erewrite bind_ok by exact Hread.
  erewrite bind_ok by reflexivity.
  erewrite bind_ok by reflexivity.
  lazymatch goal with
  | |- exists _, (_ ≫= _) ?s = _ /\ _ =>
      destruct (for_rows_returns env self before 0 s _ Hrel Hw Hlpp Hrows
                  eq_refl) as [st1 Hloop];
      pose proof (for_rows_ok_full env self before 0 s st1 tt _ eq_refl Hloop)
        as (_ & c1 & Hc1 & _ & _ & Hfs & Hout)
  end.
  destruct (place_label_missing self (0 + Z.of_nat (length before)) row
              st1 c1 key Hc1 Hlpp Hkey) as (st2 & Hrow & Hfs2 & Hout2).
  exists st2. split.
  - apply bind_raise. rewrite for_rows_app, Hloop. cbn [for_rows].
    apply bind_raise. exact Hrow.
  - rewrite Hfs2, Hout2, Hfs, Hout. split; reflexivity.
Qed.

(** X13. With an empty grid ([columns * rows = 0]) [generate_labels] raises
    [ZeroDivisionError] on every table it can read.  With rows in the
    table it raises at the first row: nothing is drawn, printed or written.
    With no row it raises in the closing message, after the document, empty,
    has been written. *)
Theorem empty_grid self data_file output_pdf (st : State num) df :
  labels_per_page (config self) = 0 ->
  read_data data_file st = (st, Ok df) ->
  generate_labels env self data_file output_pdf st =
  ({| files :=
        match df with
        | [] => <[output_pdf := PdfFile (titled_canvas output_pdf)]> (files st)
        | _ :: _ => files st
        end;
      stdout := stdout st;
      surface := Some (titled_canvas output_pdf) |},
   Raise ZeroDivisionError).
Proof.
  intros Hlpp Hread. unfold generate_labels.
  erewrite bind_ok by exact Hread.
  erewrite bind_ok by reflexivity.
  erewrite bind_ok by reflexivity.
  destruct df as [|row df].
  - erewrite bind_ok by reflexivity.
    erewrite bind_ok by reflexivity.
    unfold page_count, py_floordiv. rewrite Hlpp. reflexivity.
  - apply bind_raise. cbn [for_rows]. apply bind_raise.
    unfold place_label. rewrite (grid_cell_zero_grid _ _ Hlpp).
    reflexivity.
Qed.

End RaisingRuns.

Lemma missing_column_example :
  let st : State float :=
    {| files := <["partial.csv" :=
                    CsvFile [Example.row1; delete "color" Example.row2]]> ∅;
       stdout := []; surface := None |} in
  exists st',
    generate_labels Example.env Example.generator "partial.csv" "labels.pdf" st
      = (st', Raise (KeyError "color")) /\
    files st' !! "labels.pdf" = None /\
    stdout st' = [Line "STOWAGE-A12-B3"].
Proof.
  intros st.
  destruct (missing_column Example.env Example.generator "partial.csv"
              "labels.pdf" st [Example.row1] (delete "color" Example.row2)
              [] "color" example_reliable)
    as (st' & Hrun & Hfiles & Hout).
  - cbn. lia.
  - discriminate.
  - reflexivity.
  - repeat constructor; eexists; reflexivity.
  - reflexivity.
  - exists st'. split; [exact Hrun|]. split.
    + rewrite Hfiles. reflexivity.
    + rewrite Hout. reflexivity.
Defined.

Lemma empty_grid_example :
  generate_labels Example.env Example.no_columns "locations.csv" "labels.pdf"
    Example.start =
  ({| files := files Example.start; stdout := [];
      surface := Some (titled_canvas "labels.pdf") |},
   Raise ZeroDivisionError) /\
  generate_labels Example.env Example.no_columns "empty.csv" "labels.pdf"
    Example.start =
  ({| files := <["labels.pdf" := PdfFile (titled_canvas "labels.pdf")]>
                 (files Example.start);
      stdout := [];
      surface := Some (titled_canvas "labels.pdf") |},
   Raise ZeroDivisionError).
Proof.
  split.
  - exact (empty_grid Example.env Example.no_columns "locations.csv"
             "labels.pdf" Example.start [Example.row1; Example.row2]
             eq_refl example_read).
  - exact (empty_grid Example.env Example.no_columns "empty.csv"
             "labels.pdf" Example.start [] eq_refl eq_refl).
Defined.

Lemma reported_pages_match_document_example :
  exists doc p,
    files Example.finish !! "labels.pdf" = Some (PdfFile doc) /\
    last (borders doc) = Some p /\
    last (stdout Example.finish)
      = Some (Summary "labels.pdf" 2 (page_index p + 1)).
Proof.
  destruct (reported_pages_match_document Example.env Example.generator
              "locations.csv" "labels.pdf" Example.start Example.finish
              example_grid example_run)
    as (df & doc & pages & Hread & Hfile & Hout & Hlast).
  rewrite example_read in Hread. injection Hread as <-.
  destruct Hlast as (p & Hp & ->); [discriminate|].
  exists doc, p. split; [exact Hfile|]. split; [exact Hp | exact Hout].
Defined.

(** ** The grid on the page *)

Section Cells.
Context {num : Type} `{PyNum num}.

Lemma same_cell_same_index (cfg : Config num) (i j : Z) :
  labels_per_page cfg <> 0 ->
  i / labels_per_page cfg = j / labels_per_page cfg ->
  (i mod labels_per_page cfg) / columns cfg
    = (j mod labels_per_page cfg) / columns cfg ->
  (i mod labels_per_page cfg) mod columns cfg
    = (j mod labels_per_page cfg) mod columns cfg ->
  i = j.
Proof.
  intros Hlpp Hpage Hrow Hcol.
  assert (columns cfg <> 0) as Hc.
  { intros Hz. apply Hlpp. unfold labels_per_page. now rewrite Hz. }
  assert (i mod labels_per_page cfg = j mod labels_per_page cfg) as Hpos.
  { rewrite (Z.div_mod (i mod labels_per_page cfg) (columns cfg) Hc).
    rewrite (Z.div_mod (j mod labels_per_page cfg) (columns cfg) Hc).
    now rewrite Hrow, Hcol. }
  rewrite (Z.div_mod i (labels_per_page cfg) Hlpp).
  rewrite (Z.div_mod j (labels_per_page cfg) Hlpp).
  now rewrite Hpage, Hpos.
Qed.

Lemma cell_bounds (cfg : Config num) (idx : Z) :
  0 < columns cfg -> 0 < rows cfg ->
  0 <= (idx mod labels_per_page cfg) mod columns cfg < columns cfg /\
  0 <= (idx mod labels_per_page cfg) / columns cfg < rows cfg.
Proof.
  intros Hc Hr.
  assert (0 <= idx mod labels_per_page cfg < columns cfg * rows cfg) as Hpos.
  { apply Z.mod_pos_bound. unfold labels_per_page. nia. }
  split; [apply Z.mod_pos_bound; lia|]. split.
  - apply Z.div_pos; lia.
  - apply Z.div_lt_upper_bound; lia.
Qed.

(** X15. On a grid that is not empty, two different labels of one page are
    in different cells: they differ in their row or in their column, so
    that no cell of a page is used twice. *)
Theorem cell_used_once (cfg : Config num) (i j : Z) pi ri ci pj rj cj :
  labels_per_page cfg <> 0 ->
  grid_cell cfg i = Ok (pi, ri, ci) ->
  grid_cell cfg j = Ok (pj, rj, cj) ->
  i <> j ->
  i / labels_per_page cfg = j / labels_per_page cfg ->
  ri <> rj \/ ci <> cj.
Proof.
  intros Hlpp Hi Hj Hij Hpage.
  rewrite (grid_cell_ok cfg i Hlpp) in Hi. injection Hi as <- <- <-.
  rewrite (grid_cell_ok cfg j Hlpp) in Hj. injection Hj as <- <- <-.
  destruct (Z.eq_dec ((i mod labels_per_page cfg) / columns cfg)
              ((j mod labels_per_page cfg) / columns cfg)) as [Hrow|Hrow];
    [|now left].
  destruct (Z.eq_dec ((i mod labels_per_page cfg) mod columns cfg)
              ((j mod labels_per_page cfg) mod columns cfg)) as [Hcol|Hcol];
    [|now right].
  exfalso. apply Hij. now apply (same_cell_same_index cfg).
Qed.

End Cells.

Lemma cell_used_once_example : 0 <> 1 \/ 1 <> 1.
Proof.
  apply (cell_used_once (@default_config float _) 31 34 1 0 1 4 1 1).
  - discriminate.
  - reflexivity.
  - reflexivity.
  - discriminate.
  - reflexivity.
Defined.

Section ExactGrid.
Local Open Scope Q_scope.

Lemma inject_Z_step (a b : Z) (s : Q) :
  (a < b)%Z -> 0 <= s -> inject_Z a * s + s <= inject_Z b * s.
Proof.
  intros Hab Hs.
  assert (inject_Z a + 1 <= inject_Z b) as Hle.
  { change 1 with (inject_Z 1). rewrite <- inject_Z_plus.
    rewrite <- Zle_Qle. lia. }
  assert (0 <= (inject_Z b - (inject_Z a + 1)) * s) as Hp.
  { apply Qmult_le_0_compat; [lra | exact Hs]. }
  lra.
Qed.

Lemma inject_Z_scale (a b : Z) (s : Q) :
  (a <= b)%Z -> 0 <= s -> inject_Z a * s <= inject_Z b * s.
Proof.
  intros Hab Hs. apply Qmult_le_compat_r; [|exact Hs].
  rewrite <- Zle_Qle. exact Hab.
Qed.

Lemma label_x_exact (cfg : Config Q) col :
  label_x cfg col
  = left_margin cfg + inject_Z col * (label_width cfg + h_gap cfg).
Proof. reflexivity. Qed.

Lemma label_y_exact (cfg : Config Q) row :
  label_y cfg row ==
  page_height cfg - top_margin cfg - label_height cfg
  - inject_Z row * (label_height cfg + v_gap cfg).
Proof.
  unfold label_y. cbn [nadd nsub nmul of_int exact_num].
  rewrite inject_Z_plus. change (inject_Z 1) with 1. ring.
Qed.


(** X17. In exact arithmetic, on a grid with positive sides, when the gaps
    and the sizes of a label are not negative, the boxes of two different
    labels of one page do not overlap: one is to the side of the other or
    below it. *)
Theorem labels_do_not_overlap (cfg : Config Q) (i j : Z) :
  (0 < columns cfg)%Z -> (0 < rows cfg)%Z ->
  0 <= label_width cfg -> 0 <= h_gap cfg ->
  0 <= label_height cfg -> 0 <= v_gap cfg ->
  i <> j ->
  (i / labels_per_page cfg = j / labels_per_page cfg)%Z ->
  forall pi ri ci pj rj cj,
    grid_cell cfg i = Ok (pi, ri, ci) ->
    grid_cell cfg j = Ok (pj, rj, cj) ->
    let xi := label_x cfg ci in
    let yi := label_y cfg ri in
    let xj := label_x cfg cj in
    let yj := label_y cfg rj in
    xi + label_width cfg <= xj \/ xj + label_width cfg <= xi \/
    yi + label_height cfg <= yj \/ yj + label_height cfg <= yi.
Proof.
  intros Hc Hr Hlw Hhg Hlh Hvg Hij Hpage pi ri ci pj rj cj Hi Hj.
  assert (labels_per_page cfg <> 0%Z) as Hlpp by (unfold labels_per_page; nia).
  rewrite (grid_cell_ok cfg i Hlpp) in Hi.
  rewrite (grid_cell_ok cfg j Hlpp) in Hj.
  injection Hi as Hpi Hri Hci. injection Hj as Hpj Hrj Hcj. cbv zeta.
  rewrite !label_x_exact, !label_y_exact.
  assert (0 <= label_width cfg + h_gap cfg) as Hs by lra.
  assert (0 <= label_height cfg + v_gap cfg) as Ht by lra.
  destruct (Z.lt_trichotomy ci cj) as [Hlt|[Heq|Hgt]].
  - left. pose proof (inject_Z_step ci cj _ Hlt Hs). lra.
  - destruct (Z.lt_trichotomy ri rj) as [Hlt|[Heq'|Hgt]].
    + right. right. right. pose proof (inject_Z_step ri rj _ Hlt Ht). lra.
    + exfalso. apply Hij. subst ri rj ci cj.
      apply (same_cell_same_index cfg i j Hlpp Hpage Heq' Heq).
    + right. right. left. pose proof (inject_Z_step rj ri _ Hgt Ht). lra.
  - right. left. pose proof (inject_Z_step cj ci _ Hgt Hs). lra.
Qed.

End ExactGrid.


Lemma labels_do_not_overlap_example :
  let xi := label_x (@default_config Q _) 1 in
  let yi := label_y (@default_config Q _) 0 in
  let xj := label_x (@default_config Q _) 1 in
  let yj := label_y (@default_config Q _) 1 in
  (xi + label_width default_config <= xj \/
   xj + label_width default_config <= xi \/
   yi + label_height default_config <= yj \/
   yj + label_height default_config <= yi)%Q.
Proof.
  apply (labels_do_not_overlap (@default_config Q _) 31 34)
    with (pi := 1%Z) (pj := 4%Z);
    try reflexivity; try discriminate; vm_compute; discriminate.
Defined.


(** ** Upper-case extensions *)

Section Extensions.
Context {num : Type} `{PyNum num}.
Import Text TextFacts.

Lemma last_char_app (before suffix : string) :
  suffix <> EmptyString ->
  last_char (String.app before suffix) = last_char suffix.
Proof.
  intros Hne. induction before as [|b before IH]; [reflexivity|].
  rewrite app_cons. cbn [last_char].
  destruct (String.app before suffix) eqn:Happ; [|exact IH].
  destruct before; [contradiction | rewrite app_cons in Happ; discriminate].
Qed.

Lemma suffix_last_char (suffix p : string) :
  suffix <> EmptyString -> Suffix suffix p -> last_char p = last_char suffix.
Proof. intros Hne [before ->]. now apply last_char_app. Qed.

(** X18. The extension is compared as it is written: a path that ends in
    [.CSV], [.XLSX] or [.XLS], in upper case, is refused as an unsupported
    format, in the state [read_data] was called in. *)
Theorem upper_case_extension_unsupported file_path (st : State num) :
  Suffix ".CSV" file_path \/ Suffix ".XLSX" file_path \/
  Suffix ".XLS" file_path ->
  read_data file_path st = (st, Raise unsupported).
Proof.
  intros Hupper. apply read_data_unsupported; intros Hlower;
    apply suffix_last_char in Hlower; try discriminate;
    destruct Hupper as [Hu|[Hu|Hu]];
    apply suffix_last_char in Hu; try discriminate;
    rewrite Hu in Hlower; discriminate Hlower.
Qed.

End Extensions.

Lemma upper_case_extension_unsupported_example :
  read_data "LOCATIONS.CSV" Example.start = (Example.start, Raise unsupported).
Proof.
  apply (upper_case_extension_unsupported "LOCATIONS.CSV" Example.start).
  left. apply TextFacts.endswith_Suffix. reflexivity.
Defined.
